(** * jira3.py: the Jira tool server, embedded and verified

    The five tools of [src/jira3.py] ([get_epic_name_field_id],
    [get_project_info], [download_attachments], [upload_attachment],
    [list_tmp_files]) are embedded as computations of a small monad that
    threads the observable world (file system, log, record of outgoing
    HTTP calls) and carries Python exceptions.

    What the embedding fixes about the environment:
    - the [requests] boundary is an arbitrary deterministic function
      [remote] from the calls made so far and the current call to a reply;
    - [response.json()] on a body that is not JSON raises
      [requests.exceptions.JSONDecodeError], a [RequestException]
      (requests 2.27 and later);
    - the file system is a finite map from absolute paths (lists of
      components) to nodes, paths are resolved POSIX style without symbolic
      links, and permissions, quotas and name-length limits are not
      modelled. *)

From Stdlib Require Import ZArith String Ascii List.
From stdpp Require Import base option strings list gmap pretty.

Open Scope string_scope.
Open Scope Z_scope.

#[local] Set Warnings "-register-all".

(** ** Python values *)

Definition bytes := list Byte.byte.

(** A value as [json.loads] produces it.  A float is kept as its 64-bit
    IEEE pattern; a dict keeps its insertion order and is read by its
    first binding of a key. *)
Inductive pyval :=
| PNone
| PBool (b : bool)
| PInt (n : Z)
| PFloat (bits : Z)
| PStr (s : string)
| PList (l : list pyval)
| PDict (kvs : list (string * pyval)).

(** [bool(v)] *)
Definition truthy (v : pyval) : bool :=
  match v with
  | PNone => false
  | PBool b => b
  | PInt n => negb (n =? 0)
  | PFloat bits => negb (bits `mod` 2 ^ 63 =? 0)
  | PStr s => negb (String.eqb s "")
  | PList l => match l with [] => false | _ => true end
  | PDict kvs => match kvs with [] => false | _ => true end
  end.

(** [bool(s)] for a value of type [Optional[str]] *)
Definition truthy_opt (s : option string) : bool :=
  match s with
  | None => false
  | Some s => negb (String.eqb s "")
  end.

(** [f"{s}"] for a value of type [Optional[str]] *)
Definition fstr (s : option string) : string :=
  match s with
  | None => "None"
  | Some s => s
  end.

(** An [Optional[str]] as a value *)
Definition of_opt (s : option string) : pyval :=
  match s with
  | None => PNone
  | Some s => PStr s
  end.

Fixpoint dict_get (kvs : list (string * pyval)) (k : string) : option pyval :=
  match kvs with
  | [] => None
  | (k', v) :: rest => if String.eqb k' k then Some v else dict_get rest k
  end.

(** [v == s] for a string literal [s] *)
Definition py_eq_str (v : pyval) (s : string) : bool :=
  match v with
  | PStr s' => String.eqb s' s
  | _ => false
  end.

Fixpoint chars (s : string) : list pyval :=
  match s with
  | EmptyString => []
  | String a s' => PStr (String a EmptyString) :: chars s'
  end.

(** ** Exceptions and the world *)

Inductive errno := ENOENT | EEXIST | ENOTDIR | EISDIR.

(** [OSError e path] stands for the subclass Python raises for the error
    number: [FileNotFoundError], [FileExistsError], [NotADirectoryError],
    [IsADirectoryError].  None of them is a [RequestException]. *)
Inductive exn :=
| RequestException (msg : string)
| AttributeError
| KeyError (k : string)
| TypeError
| OSError (e : errno) (path : string).

(** [str(e)]; the text of [AttributeError] and [TypeError] is left out, no
    handler of the program can receive them. *)
Definition str_exn (e : exn) : string :=
  match e with
  | RequestException msg => msg
  | AttributeError | TypeError => ""
  | KeyError k => "'" ++ k ++ "'"
  | OSError ENOENT path => "[Errno 2] No such file or directory: '" ++ path ++ "'"
  | OSError EEXIST path => "[Errno 17] File exists: '" ++ path ++ "'"
  | OSError ENOTDIR path => "[Errno 20] Not a directory: '" ++ path ++ "'"
  | OSError EISDIR path => "[Errno 21] Is a directory: '" ++ path ++ "'"
  end.

Inductive level := DEBUG | INFO | WARNING | ERROR.

Inductive node := File (data : bytes) | Dir.

Inductive method := GET | POST.

(** One call of [requests.get] or [requests.post] with its arguments. *)
Record request := {
  req_method : method;
  req_url : pyval;
  req_auth : option string * option string;
  req_headers : list (string * string);
  req_files : list (string * (string * bytes))
}.

Inductive decoded := NotJson (msg : string) | Json (v : pyval).

Record response := {
  status_code : Z;
  reason : string;
  resp_url : string;
  content : bytes;
  body : decoded
}.

(** Either the call raises a [RequestException] or it answers. *)
Inductive reply := Failed (msg : string) | Answer (r : response).

(** The remote side: the calls made before this one, then this one. *)
Definition remote := list request -> request -> reply.

Record world := {
  fs : gmap (list string) node;
  cwd : list string;
  log : list (level * string);
  trace : list request
}.

Definition with_fs (t : gmap (list string) node) (w : world) : world :=
  {| fs := t; cwd := cwd w; log := log w; trace := trace w |}.

Definition with_log (l : list (level * string)) (w : world) : world :=
  {| fs := fs w; cwd := cwd w; log := l; trace := trace w |}.

Definition with_trace (tr : list request) (w : world) : world :=
  {| fs := fs w; cwd := cwd w; log := log w; trace := tr |}.

(** ** The monad: state passing with exceptions *)

Inductive outcome (A : Type) :=
| Return (a : A)
| Raise (e : exn).
Arguments Return {A} a.
Arguments Raise {A} e.

Definition py (A : Type) : Type := world -> outcome A * world.

#[global] Instance py_ret : MRet py := fun A a w => (Return a, w).

#[global] Instance py_bind : MBind py := fun A B f m w =>
  match m w with
  | (Return a, w') => f a w'
  | (Raise e, w') => (Raise e, w')
  end.

Definition raise {A : Type} (e : exn) : py A := fun w => (Raise e, w).

(** [try: body  except requests.RequestException as e: handler(str(e))] *)
Definition try_except {A : Type} (body : py A) (handler : string -> py A) : py A :=
  fun w =>
    match body w with
    | (Raise (RequestException msg), w') => handler msg w'
    | r => r
    end.

(** [try: body  except Exception as e: handler] *)
Definition try_except_all {A : Type} (body : py A) (handler : exn -> py A) : py A :=
  fun w =>
    match body w with
    | (Raise e, w') => handler e w'
    | r => r
    end.

Definition when (b : bool) (m : py unit) : py unit :=
  if b then m else mret tt.

(** ** Dynamic operations on values *)

(** [v.get(k, default)] *)
Definition py_get (v : pyval) (k : string) (default : pyval) : py pyval :=
  match v with
  | PDict kvs => mret (from_option id default (dict_get kvs k))
  | _ => raise AttributeError
  end.

(** [v[k]] for a string literal [k] *)
Definition py_getitem (v : pyval) (k : string) : py pyval :=
  match v with
  | PDict kvs =>
      match dict_get kvs k with
      | Some x => mret x
      | None => raise (KeyError k)
      end
  | _ => raise TypeError
  end.

(** The items a [for] loop over [v] visits. *)
Definition py_iter (v : pyval) : py (list pyval) :=
  match v with
  | PList l => mret l
  | PDict kvs => mret (map (fun kv => PStr (fst kv)) kvs)
  | PStr s => mret (chars s)
  | _ => raise TypeError
  end.

(** ** Logging *)

Definition logger (lv : level) (msg : string) : py unit :=
  fun w => (Return tt, with_log (log w ++ [(lv, msg)]) w).

Definition logger_error := logger ERROR.
Definition logger_warning := logger WARNING.
Definition logger_info := logger INFO.
Definition logger_debug := logger DEBUG.

(** ** Paths and files *)

Fixpoint split_on (c : ascii) (s : string) : list string :=
  match s with
  | EmptyString => [EmptyString]
  | String a s' =>
      if Ascii.eqb a c then EmptyString :: split_on c s'
      else match split_on c s' with
           | [] => [String a EmptyString]
           | h :: t => String a h :: t
           end
  end.

Fixpoint ends_with (c : ascii) (s : string) : bool :=
  match s with
  | EmptyString => false
  | String a EmptyString => Ascii.eqb a c
  | String _ s' => ends_with c s'
  end.

(** [os.path.join(a, b)] of posixpath *)
Definition os_path_join (a b : string) : string :=
  if String.prefix "/" b then b
  else if String.eqb a "" || ends_with "/" a then a ++ b
  else a ++ "/" ++ b.

Definition is_dir (t : gmap (list string) node) (p : list string) : bool :=
  match p with
  | [] => true
  | _ => match t !! p with Some Dir => true | _ => false end
  end.

Definition present (t : gmap (list string) node) (p : list string) : bool :=
  match p with
  | [] => true
  | _ => bool_decide (is_Some (t !! p))
  end.

(** Walk the components from [cur]: every directory stepped through must
    exist; the node reached need not. *)
Fixpoint walk (t : gmap (list string) node) (cur : list string)
    (comps : list string) : errno + list string :=
  match comps with
  | [] => inr cur
  | c :: rest =>
      if is_dir t cur then
        if String.eqb c "" || String.eqb c "." then walk t cur rest
        else if String.eqb c ".." then walk t (removelast cur) rest
        else walk t (cur ++ [c]) rest
      else if present t cur then inl ENOTDIR
      else inl ENOENT
  end.

Definition resolve (w : world) (path : string) : errno + list string :=
  if String.eqb path "" then inl ENOENT
  else walk (fs w) (if String.prefix "/" path then [] else cwd w)
         (split_on "/" path).

(** [os.path.exists(path)] *)
Definition os_path_exists (path : string) : py bool :=
  fun w =>
    match resolve w path with
    | inr k => (Return (present (fs w) k), w)
    | inl _ => (Return false, w)
    end.

(** [os.path.isfile(path)] *)
Definition os_path_isfile (path : string) : py bool :=
  fun w =>
    match resolve w path with
    | inr k => (Return (match fs w !! k with Some (File _) => true | _ => false end), w)
    | inl _ => (Return false, w)
    end.

(** [os.mkdir(path)] *)
Definition os_mkdir (path : string) : py unit :=
  fun w =>
    match resolve w path with
    | inr k =>
        if present (fs w) k then (Raise (OSError EEXIST path), w)
        else (Return tt, with_fs (<[k := Dir]> (fs w)) w)
    | inl e => (Raise (OSError e path), w)
    end.

(** [os.path.isdir(path)] *)
Definition os_path_isdir (path : string) : py bool :=
  fun w =>
    match resolve w path with
    | inr k => (Return (is_dir (fs w) k), w)
    | inl _ => (Return false, w)
    end.

(** [os.makedirs(name, exist_ok=True)] for a [name] of one component, as
    the program calls it: there is no leading part to create first, and an
    [OSError] of [mkdir] is dropped when [name] is a directory. *)
Definition os_makedirs_exist_ok (name : string) : py unit :=
  try_except_all (os_mkdir name)
    (fun e => d ← os_path_isdir name; if d : bool then mret tt else raise e).

(** [with open(path, "rb") as f: f.read()] *)
Definition open_rb (path : string) : py bytes :=
  fun w =>
    match resolve w path with
    | inr k =>
        match fs w !! k with
        | Some (File data) => (Return data, w)
        | Some Dir => (Raise (OSError EISDIR path), w)
        | None => (Raise (OSError (if is_dir (fs w) k then EISDIR
                                   else ENOENT) path), w)
        end
    | inl e => (Raise (OSError e path), w)
    end.

(** [with open(path, "wb") as f: f.write(data)] *)
Definition open_wb_write (path : string) (data : bytes) : py unit :=
  fun w =>
    match resolve w path with
    | inr k =>
        if is_dir (fs w) k then (Raise (OSError EISDIR path), w)
        else (Return tt, with_fs (<[k := File data]> (fs w)) w)
    | inl e => (Raise (OSError e path), w)
    end.

Fixpoint child_of (dir p : list string) : option string :=
  match dir, p with
  | [], [n] => Some n
  | d :: dir', c :: p' => if String.eqb d c then child_of dir' p' else None
  | _, _ => None
  end.

(** [os.listdir(path)] *)
Definition os_listdir (path : string) : py (list string) :=
  fun w =>
    match resolve w path with
    | inr k =>
        if is_dir (fs w) k then
          (Return (omap (fun kv => child_of k (fst kv)) (map_to_list (fs w))), w)
        else if present (fs w) k then (Raise (OSError ENOTDIR path), w)
        else (Raise (OSError ENOENT path), w)
    | inl e => (Raise (OSError e path), w)
    end.

(** ** The [requests] boundary *)

Section Requests.
Variable net : remote.

Definition send (r : request) : py response :=
  fun w =>
    let w' := with_trace (trace w ++ [r]) w in
    match net (trace w) r with
    | Failed msg => (Raise (RequestException msg), w')
    | Answer resp => (Return resp, w')
    end.

(** [requests.get(url, auth=auth, headers=headers)] *)
Definition requests_get (url : pyval) (auth : option string * option string)
    (headers : list (string * string)) : py response :=
  send {| req_method := GET; req_url := url; req_auth := auth;
          req_headers := headers; req_files := [] |}.

(** [requests.post(url, auth=auth, headers=headers, files=files)] *)
Definition requests_post (url : pyval) (auth : option string * option string)
    (headers : list (string * string))
    (files : list (string * (string * bytes))) : py response :=
  send {| req_method := POST; req_url := url; req_auth := auth;
          req_headers := headers; req_files := files |}.
End Requests.

(** [response.raise_for_status()] *)
Definition raise_for_status (r : response) : py unit :=
  if (400 <=? status_code r) && (status_code r <? 500) then
    raise (RequestException (pretty (status_code r) ++ " Client Error: "
                             ++ reason r ++ " for url: " ++ resp_url r))
  else if (500 <=? status_code r) && (status_code r <? 600) then
    raise (RequestException (pretty (status_code r) ++ " Server Error: "
                             ++ reason r ++ " for url: " ++ resp_url r))
  else mret tt.

(** [response.json()] *)
Definition response_json (r : response) : py pyval :=
  match body r with
  | Json v => mret v
  | NotJson msg => raise (RequestException msg)
  end.

(** ** Configuration: the module-level globals read from the environment *)

Record config := {
  JIRA_URL : option string;
  JIRA_USERNAME : option string;
  JIRA_API_TOKEN : option string;
  PROJECT_KEY : option string;
  ISSUE_KEY : option string
}.

(** ** The tools *)

Section Tools.
Variable cfg : config.
Variable net : remote.

Definition auth : option string * option string :=
  (JIRA_USERNAME cfg, JIRA_API_TOKEN cfg).

(** Lines 33-37: the loop over the fields, with its early return. *)
Fixpoint find_epic_name (fields : list pyval) : py pyval :=
  match fields with
  | [] => mret (PStr "customfield_10011")
  | field :: rest =>
      name ← py_get field "name" PNone;
      if py_eq_str name "Epic Name" then py_getitem field "id"
      else find_epic_name rest
  end.

Definition get_epic_name_field_id : py pyval :=
  let url := fstr (JIRA_URL cfg) ++ "/rest/api/3/field" in
  let headers := [("Accept", "application/json")] in
  try_except
    (response ← requests_get net (PStr url) auth headers;
     raise_for_status response;;
     fields ← response_json response;
     items ← py_iter fields;
     find_epic_name items)
    (fun e =>
       logger_error ("Error fetching Epic Name field ID: " ++ e);;
       mret PNone).

Definition get_project_info : py pyval :=
  let url := fstr (JIRA_URL cfg) ++ "/rest/api/3/project/"
             ++ fstr (PROJECT_KEY cfg) in
  let headers := [("Accept", "application/json")] in
  try_except
    (response ← requests_get net (PStr url) auth headers;
     raise_for_status response;;
     project ← response_json response;
     name ← py_get project "name" PNone;
     id ← py_get project "id" PNone;
     type ← py_get project "projectTypeKey" PNone;
     description ← py_get project "description"
                     (PStr "No description available");
     mret (PDict [("project_key", of_opt (PROJECT_KEY cfg));
                  ("project_name", name);
                  ("project_id", id);
                  ("project_type", type);
                  ("description", description)]))
    (fun e =>
       logger_error ("Error fetching project info for "
                     ++ fstr (PROJECT_KEY cfg) ++ ": " ++ e);;
       mret PNone).

(** Lines 80-84 and 145-149: the issue key falls back to [ISSUE_KEY]. *)
Definition default_issue_key (issue_key : option string) : py (option string) :=
  if negb (truthy_opt issue_key) then
    when (negb (truthy_opt (ISSUE_KEY cfg)))
      (logger_error
         "No issue_key provided and ISSUE_KEY environment variable not set");;
    logger_info ("No issue_key provided, using environment ISSUE_KEY: "
                 ++ fstr (ISSUE_KEY cfg));;
    mret (ISSUE_KEY cfg)
  else mret issue_key.

(** Lines 87-88 and 152-153: [issue_key.startswith] needs a string. *)
Definition check_project (issue_key : option string) : py string :=
  match issue_key with
  | None => raise AttributeError
  | Some k =>
      when (negb (String.prefix (fstr (PROJECT_KEY cfg) ++ "-") k))
        (logger_warning ("Issue key " ++ k
                         ++ " does not belong to configured project "
                         ++ fstr (PROJECT_KEY cfg)));;
      mret k
  end.

(** Lines 109-121: the loop over the attachments. *)
Fixpoint download_each (attachments : list pyval) (saved_files : list string)
    : py (list string) :=
  match attachments with
  | [] => mret saved_files
  | attachment :: rest =>
      file_url ← py_getitem attachment "content";
      file_name ← py_getitem attachment "filename";
      file_response ← requests_get net file_url auth [];
      raise_for_status file_response;;
      file_path ← match file_name with
                  | PStr n => mret (os_path_join "tmp" n)
                  | _ => raise TypeError
                  end;
      open_wb_write file_path (content file_response);;
      logger_debug ("Downloaded attachment: " ++ file_path);;
      download_each rest (saved_files ++ [file_path])
  end.

Definition download_attachments (issue_key : option string) : py pyval :=
  issue_key ← default_issue_key issue_key;
  issue_key ← check_project issue_key;
  let url := fstr (JIRA_URL cfg) ++ "/rest/api/3/issue/" ++ issue_key in
  let headers := [("Accept", "application/json")] in
  try_except
    (response ← requests_get net (PStr url) auth headers;
     raise_for_status response;;
     issue ← response_json response;
     fields ← py_get issue "fields" (PDict []);
     attachments ← py_get fields "attachment" (PList []);
     os_makedirs_exist_ok "tmp";;
     if negb (truthy attachments) then
       logger_info ("No attachments found for issue " ++ issue_key);;
       mret (PDict [("downloaded_files", PList []);
                    ("message",
                     PStr ("No attachments found for issue " ++ issue_key))])
     else
       items ← py_iter attachments;
       saved_files ← download_each items [];
       mret (PDict [("downloaded_files", PList (map PStr saved_files));
                    ("message",
                     PStr ("Successfully downloaded "
                           ++ pretty (length saved_files)
                           ++ " attachments from issue " ++ issue_key));
                    ("issue_key", PStr issue_key);
                    ("project_key", of_opt (PROJECT_KEY cfg))]))
    (fun e =>
       logger_error ("Error downloading attachments for " ++ issue_key
                     ++ ": " ++ e);;
       mret PNone).

Definition upload_attachment (filename : string) (issue_key : option string)
    : py pyval :=
  issue_key ← default_issue_key issue_key;
  issue_key ← check_project issue_key;
  let url := fstr (JIRA_URL cfg) ++ "/rest/api/3/issue/" ++ issue_key
             ++ "/attachments" in
  let headers := [("X-Atlassian-Token", "no-check")] in
  let file_path := os_path_join "tmp" filename in
  found ← os_path_exists file_path;
  when (negb found) (logger_error ("File " ++ file_path ++ " not found"));;
  try_except
    (f ← open_rb file_path;
     response ← requests_post net (PStr url) auth headers
                  [("file", (filename, f))];
     raise_for_status response;;
     logger_debug ("Uploaded attachment: " ++ filename ++ " to " ++ issue_key);;
     mret (PDict [("uploaded_file", PStr filename);
                  ("message",
                   PStr ("Successfully uploaded " ++ filename
                         ++ " to issue " ++ issue_key));
                  ("issue_key", PStr issue_key);
                  ("project_key", of_opt (PROJECT_KEY cfg))]))
    (fun e =>
       logger_error ("Error uploading " ++ filename ++ " to " ++ issue_key
                     ++ ": " ++ e);;
       mret PNone).
End Tools.

(** Line 192: the comprehension keeps the entries that are regular files. *)
Fixpoint keep_files (tmp_dir : string) (names : list string) : py (list string) :=
  match names with
  | [] => mret []
  | f :: rest =>
      b ← os_path_isfile (os_path_join tmp_dir f);
      files ← keep_files tmp_dir rest;
      mret (if b : bool then f :: files else files)
  end.

Definition list_tmp_files : py pyval :=
  let tmp_dir := "tmp" in
  found ← os_path_exists tmp_dir;
  if negb found then
    mret (PDict [("files", PList []);
                 ("message", PStr "tmp directory does not exist")])
  else
    try_except_all
      (names ← os_listdir tmp_dir;
       files ← keep_files tmp_dir names;
       mret (PDict [("files", PList (map PStr files));
                    ("count", PInt (Z.of_nat (length files)));
                    ("message",
                     PStr ("Found " ++ pretty (length files)
                           ++ " files in tmp directory"))]))
      (fun e =>
         logger_error ("Error listing tmp files: " ++ str_exn e);;
         mret PNone).

(** ** Vocabulary of the properties *)

Open Scope list_scope.

(** A call failed: it raised, or it answered with a status that
    [raise_for_status] turns into an [HTTPError]. *)
Definition failing (r : reply) : bool :=
  match r with
  | Failed _ => true
  | Answer resp => (400 <=? status_code resp) && (status_code resp <? 600)
  end.

(** What [op] does with a failing call: the call is the last one made, the
    tool returns [None], and the log ends with a new [ERROR] record; and no
    [RequestException] leaves the tool. *)
Definition handled (net : remote) (op : py pyval) : Prop :=
  forall w,
    (forall msg, (op w).1 <> Raise (RequestException msg)) /\
    forall pre q post,
      trace (op w).2 = trace w ++ pre ++ q :: post ->
      failing (net (trace w ++ pre) q) = true ->
      post = [] /\ (op w).1 = Return PNone /\
      exists l msg, log (op w).2 = log w ++ l ++ [(ERROR, msg)].

(** Every node of [t] is still there in [t'], a file as a file and a
    directory as a directory. *)
Definition preserved (t t' : gmap (list string) node) : Prop :=
  forall p,
    match t !! p with
    | Some (File _) => exists data, t' !! p = Some (File data)
    | Some Dir => t' !! p = Some Dir
    | None => True
    end.

Definition keeps_nodes (w w' : world) : Prop := preserved (fs w) (fs w').

Definition same_nodes (w w' : world) : Prop := fs w' = fs w.

(** The log only grew; only the log grew and no call was made; the log and
    the record of calls only grew. *)
Definition grows (w w' : world) : Prop := exists l, log w' = log w ++ l.

Definition quiet (w w' : world) : Prop := grows w w' /\ trace w' = trace w.

Definition extends (w w' : world) : Prop :=
  grows w w' /\ exists new, trace w' = trace w ++ new.

(** [m] takes every world to one related to it by [R]. *)
Definition respects (R : world -> world -> Prop) {A : Type} (m : py A) : Prop :=
  forall w, R w (m w).2.

(** The log only grows, and a failing call among the calls of [m] is the
    last one and leaves [m] as a [RequestException]. *)
Definition tame (net : remote) {A : Type} (m : py A) : Prop :=
  forall w,
    grows w (m w).2 /\
    exists new,
      trace (m w).2 = trace w ++ new /\
      forall pre q post,
        new = pre ++ q :: post ->
        failing (net (trace w ++ pre) q) = true ->
        post = [] /\ exists msg, (m w).1 = Raise (RequestException msg).

(** [m] makes no call and raises no [RequestException]. *)
Definition calm {A : Type} (m : py A) : Prop :=
  forall w,
    quiet w (m w).2 /\ forall msg, (m w).1 <> Raise (RequestException msg).

(** What the log gains when no issue key is given and none is configured. *)
Definition unset_log : list (level * string) :=
  [(ERROR, "No issue_key provided and ISSUE_KEY environment variable not set");
   (INFO, "No issue_key provided, using environment ISSUE_KEY: None")].

(** [os.path.isfile(path)] as a function of the world. *)
Definition is_file_at (w : world) (path : string) : bool :=
  match resolve w path with
  | inr k => match fs w !! k with Some (File _) => true | _ => false end
  | inl _ => false
  end.

Fixpoint has_slash (s : string) : bool :=
  match s with
  | EmptyString => false
  | String a s' => Ascii.eqb a "/" || has_slash s'
  end.

(** A name a directory entry can have: not empty, not [.] or [..], no
    slash. *)
Definition plain (n : string) : bool :=
  negb (String.eqb n "" || String.eqb n "." || String.eqb n ".."
        || has_slash n).

(** The same directories, and every file still a file. *)
Definition same_dirs (t t' : gmap (list string) node) : Prop :=
  (forall p, is_dir t' p = is_dir t p) /\
  (forall p data, t !! p = Some (File data) -> exists data', t' !! p = Some (File data')).

Definition settled (w w' : world) : Prop :=
  cwd w' = cwd w /\ same_dirs (fs w) (fs w').

(** [path] opens for reading. *)
Definition readable (w : world) (path : string) : Prop :=
  exists data, (open_rb path w).1 = Return data.

(** The record the download loop logs for a saved path (line 121). *)
Definition download_record (p : string) : level * string :=
  (DEBUG, "Downloaded attachment: " +:+ p).

(** Since the log was [base]: no download record was added; every path of
    an added download record opens for reading. *)
Definition no_record (base : list (level * string)) (w' : world) : Prop :=
  exists l, log w' = base ++ l /\ forall p, download_record p ∉ l.

Definition records_readable (base : list (level * string)) (w' : world) : Prop :=
  exists l, log w' = base ++ l /\ forall p, download_record p ∈ l -> readable w' p.

(** The absolute path [p] lies in the scratch directory of [w]. *)
Definition inside_tmp (w : world) (p : list string) : bool :=
  bool_decide ((cwd w ++ ["tmp"]) `prefix_of` p).

(** The requests the two attachment tools make for an issue. *)
Definition issue_request (cfg : config) (issue_key : string) : request :=
  {| req_method := GET;
     req_url := PStr (fstr (JIRA_URL cfg) ++ "/rest/api/3/issue/" ++ issue_key);
     req_auth := (JIRA_USERNAME cfg, JIRA_API_TOKEN cfg);
     req_headers := [("Accept", "application/json")];
     req_files := [] |}.

Definition attach_request (cfg : config) (issue_key filename : string)
    (data : bytes) : request :=
  {| req_method := POST;
     req_url := PStr (fstr (JIRA_URL cfg) ++ "/rest/api/3/issue/" ++ issue_key
                      ++ "/attachments");
     req_auth := (JIRA_USERNAME cfg, JIRA_API_TOKEN cfg);
     req_headers := [("X-Atlassian-Token", "no-check")];
     req_files := [("file", (filename, data))] |}.

Definition project_request (cfg : config) : request :=
  {| req_method := GET;
     req_url := PStr (fstr (JIRA_URL cfg) ++ "/rest/api/3/project/"
                      ++ fstr (PROJECT_KEY cfg));
     req_auth := (JIRA_USERNAME cfg, JIRA_API_TOKEN cfg);
     req_headers := [("Accept", "application/json")];
     req_files := [] |}.

Definition field_request (cfg : config) : request :=
  {| req_method := GET;
     req_url := PStr (fstr (JIRA_URL cfg) ++ "/rest/api/3/field");
     req_auth := (JIRA_USERNAME cfg, JIRA_API_TOKEN cfg);
     req_headers := [("Accept", "application/json")];
     req_files := [] |}.

(** ** Sample configurations, worlds and remote sides *)

Module Sample.
Definition cfg_unset : config :=
  {| JIRA_URL := Some "https://jira.example"; JIRA_USERNAME := Some "bot";
     JIRA_API_TOKEN := Some "secret"; PROJECT_KEY := Some "DA";
     ISSUE_KEY := None |}.

Definition cfg_env : config :=
  {| JIRA_URL := Some "https://jira.example"; JIRA_USERNAME := Some "bot";
     JIRA_API_TOKEN := Some "secret"; PROJECT_KEY := Some "DA";
     ISSUE_KEY := Some "DA-4" |}.

Definition hi : bytes := [Byte.x68; Byte.x69].

(** The process runs in [/srv]; there is no [tmp] yet. *)
Definition w_fresh : world :=
  {| fs := {[ ["srv"] := Dir ]}; cwd := ["srv"]; log := []; trace := [] |}.

(** [/srv/tmp] holds [notes.txt]. *)
Definition w_tmp : world :=
  {| fs := {[ ["srv"] := Dir; ["srv"; "tmp"] := Dir;
              ["srv"; "tmp"; "notes.txt"] := File hi ]};
     cwd := ["srv"]; log := []; trace := [] |}.

Definition ok (v : pyval) (c : bytes) : reply :=
  Answer {| status_code := 200; reason := "OK"; resp_url := "";
            content := c; body := Json v |}.

Definition net_down : remote := fun _ _ => Failed "Connection refused".

Definition issue_with (filename : string) : pyval :=
  PDict [("key", PStr "DA-4");
         ("fields",
          PDict [("attachment",
                  PList [PDict [("content", PStr "https://jira.example/att/1");
                                ("filename", PStr filename)]])])].

(** An issue whose one attachment is named [../evil.txt]. *)
Definition net_evil : remote := fun _ r =>
  if py_eq_str (req_url r) "https://jira.example/att/1" then ok PNone hi
  else ok (issue_with "../evil.txt") [].

(** An issue without attachments. *)
Definition net_bare : remote := fun _ _ =>
  ok (PDict [("key", PStr "XY-9"); ("fields", PDict [("summary", PStr "s")])]) [].

Definition net_project : remote := fun _ _ =>
  ok (PDict [("id", PStr "10000"); ("name", PStr "Data");
             ("projectTypeKey", PStr "software")]) [].

Definition net_fields : remote := fun _ _ =>
  ok (PList [PDict [("id", PStr "summary"); ("name", PStr "Summary")];
             PDict [("id", PStr "customfield_10104"); ("name", PStr "Epic Name")];
             PDict [("id", PStr "customfield_10999"); ("name", PStr "Epic Name")]]) [].

(** [/etc/passwd] exists beside the working directory [/srv]. *)
Definition w_etc : world :=
  {| fs := {[ ["etc"] := Dir; ["etc"; "passwd"] := File hi; ["srv"] := Dir ]};
     cwd := ["srv"]; log := []; trace := [] |}.

(** [/srv/tmp] is a regular file. *)
Definition w_tmp_file : world :=
  {| fs := {[ ["srv"] := Dir; ["srv"; "tmp"] := File hi ]};
     cwd := ["srv"]; log := []; trace := [] |}.

(** An issue whose one attachment is named [plan.txt]. *)
Definition net_plan : remote := fun _ r =>
  if py_eq_str (req_url r) "https://jira.example/att/1" then ok PNone hi
  else ok (issue_with "plan.txt") [].

(** The first field named "Epic Name" has no id, the second has one. *)
Definition net_fields_no_id : remote := fun _ _ =>
  ok (PList [PDict [("name", PStr "Epic Name")];
             PDict [("id", PStr "customfield_10104"); ("name", PStr "Epic Name")]]) [].

Definition net_plain_fields : remote := fun _ _ =>
  ok (PList [PDict [("id", PStr "summary"); ("name", PStr "Summary")];
             PDict [("id", PStr "customfield_10020")]]) [].
End Sample.

(** ** Running a computation *)

Lemma bind_eq {A B : Type} (m : py A) (f : A -> py B) (w : world) :
  (m ≫= f) w = match m w with
               | (Return a, w') => f a w'
               | (Raise e, w') => (Raise e, w')
               end.
Proof. reflexivity. Qed.

Lemma bind_return {A B : Type} (m : py A) (f : A -> py B) w a w' :
  m w = (Return a, w') -> (m ≫= f) w = f a w'.
Proof. intros H. rewrite bind_eq, H. reflexivity. Qed.

Lemma bind_raise {A B : Type} (m : py A) (f : A -> py B) w e w' :
  m w = (Raise e, w') -> (m ≫= f) w = (Raise e, w').
Proof. intros H. rewrite bind_eq, H. reflexivity. Qed.

Ltac py_unfold :=
  unfold mbind, mret, py_bind, py_ret, raise, when, try_except, try_except_all,
    logger_error, logger_warning, logger_info, logger_debug, logger,
    with_log, with_trace, with_fs in *.

(** ** The model at work *)

Example os_path_join_plain : os_path_join "tmp" "a.txt" = "tmp/a.txt".
Proof. reflexivity. Qed.

Example os_path_join_absolute : os_path_join "tmp" "/etc/motd" = "/etc/motd".
Proof. reflexivity. Qed.

Example resolve_parent :
  resolve Sample.w_tmp "tmp/../evil.txt" = inr ["srv"; "evil.txt"].
Proof. vm_compute. reflexivity. Qed.

Example resolve_through_file :
  resolve Sample.w_tmp "tmp/notes.txt/x" = inl ENOTDIR.
Proof. vm_compute. reflexivity. Qed.

Example list_tmp_files_sample :
  (list_tmp_files Sample.w_tmp).1
  = Return (PDict [("files", PList [PStr "notes.txt"]);
                   ("count", PInt 1);
                   ("message", PStr "Found 1 files in tmp directory")]).
Proof. vm_compute. reflexivity. Qed.

Example upload_attachment_sample :
  (upload_attachment Sample.cfg_unset Sample.net_bare "notes.txt" (Some "DA-4")
     Sample.w_tmp).1
  = Return (PDict [("uploaded_file", PStr "notes.txt");
                   ("message", PStr "Successfully uploaded notes.txt to issue DA-4");
                   ("issue_key", PStr "DA-4");
                   ("project_key", PStr "DA")]).
Proof. vm_compute. reflexivity. Qed.

Example download_attachments_sample :
  let r := download_attachments Sample.cfg_unset
             (fun h q => if py_eq_str (req_url q) "https://jira.example/att/1"
                         then Sample.ok PNone Sample.hi
                         else Sample.ok (Sample.issue_with "plan.txt") [])
             (Some "DA-4") Sample.w_fresh in
  r.1 = Return (PDict [("downloaded_files", PList [PStr "tmp/plan.txt"]);
                       ("message",
                        PStr "Successfully downloaded 1 attachments from issue DA-4");
                       ("issue_key", PStr "DA-4");
                       ("project_key", PStr "DA")]) /\
  fs r.2 !! ["srv"; "tmp"; "plan.txt"] = Some (File Sample.hi).
Proof. vm_compute. split; reflexivity. Qed.

(** ** The issue key and the project check *)

Lemma default_issue_key_unset cfg issue_key w :
  truthy_opt issue_key = false -> ISSUE_KEY cfg = None ->
  default_issue_key cfg issue_key w
  = (Return None, with_log (log w ++ unset_log) w).
Proof.
  intros Hk He. unfold default_issue_key. rewrite Hk, He.
  py_unfold. simpl. rewrite <- app_assoc. reflexivity.
Qed.

(** [default_issue_key] always returns, changes the log only, and yields
    the argument when it is truthy, [ISSUE_KEY] otherwise. *)
Lemma default_issue_key_spec cfg issue_key w :
  exists l,
    default_issue_key cfg issue_key w
    = (Return (if truthy_opt issue_key then issue_key else ISSUE_KEY cfg),
       with_log (log w ++ l) w).
Proof.
  unfold default_issue_key.
  destruct (truthy_opt issue_key); simpl.
  - exists []. py_unfold. rewrite app_nil_r. destruct w; reflexivity.
  - destruct (truthy_opt (ISSUE_KEY cfg)); py_unfold; simpl.
    + eexists. reflexivity.
    + eexists. rewrite <- app_assoc. reflexivity.
Qed.

Lemma check_project_spec cfg k w :
  exists l,
    check_project cfg (Some k) w = (Return k, with_log (log w ++ l) w) /\
    (String.prefix (fstr (PROJECT_KEY cfg) +:+ "-") k = false ->
     l = [(WARNING, "Issue key " +:+ k +:+ " does not belong to configured project "
                    +:+ fstr (PROJECT_KEY cfg))]).
Proof.
  unfold check_project.
  destruct (String.prefix _ k); py_unfold; simpl.
  - exists []. split; [|discriminate]. rewrite app_nil_r. destruct w; reflexivity.
  - eexists. split; reflexivity.
Qed.

(** C1 (as the code behaves).  With a falsy [issue_key] and [ISSUE_KEY]
    unset, [download_attachments] logs the error and then raises
    [AttributeError] out of the tool: [None] has no [startswith]. *)
Theorem download_attachments_unset_issue_key_raises cfg net issue_key w :
  truthy_opt issue_key = false -> ISSUE_KEY cfg = None ->
  download_attachments cfg net issue_key w
  = (Raise AttributeError, with_log (log w ++ unset_log) w).
Proof.
  intros Hk He. unfold download_attachments.
  rewrite (bind_return _ _ _ _ _ (default_issue_key_unset cfg issue_key w Hk He)).
  reflexivity.
Qed.

Lemma download_attachments_unset_issue_key_raises_witness :
  (download_attachments Sample.cfg_unset Sample.net_down None Sample.w_fresh).1
  = Raise AttributeError.
Proof.
  rewrite (download_attachments_unset_issue_key_raises
             Sample.cfg_unset Sample.net_down None Sample.w_fresh
             eq_refl eq_refl).
  reflexivity.
Defined.

(** ** A file that is not there *)

Lemma resolve_with_log l w path : resolve (with_log l w) path = resolve w path.
Proof. reflexivity. Qed.

Lemma open_rb_missing path w :
  (os_path_exists path w).1 = Return false ->
  exists no, open_rb path w = (Raise (OSError no path), w).
Proof.
  unfold os_path_exists, open_rb.
  destruct (resolve w path) as [no|k]; simpl; [eauto|].
  intros [=Hp]. unfold present in Hp. destruct k as [|c k]; [discriminate|].
  apply bool_decide_eq_false in Hp.
  destruct (fs w !! (c :: k)) as [n|] eqn:E; [|eauto].
  exfalso. apply Hp. eauto.
Qed.

Lemma os_path_exists_with_log l w path :
  os_path_exists path (with_log l w)
  = ((os_path_exists path w).1, with_log l w).
Proof.
  unfold os_path_exists. rewrite resolve_with_log.
  destruct (resolve w path); reflexivity.
Qed.

(** C2 (as the code behaves).  When the file is not in [tmp],
    [upload_attachment] makes no request and an exception leaves the tool:
    [AttributeError] when there is no issue key at all, and otherwise,
    after the "not found" record is logged, the [OSError] of [open]. *)
Theorem upload_attachment_missing_file_raises cfg net filename issue_key w :
  (os_path_exists (os_path_join "tmp" filename) w).1 = Return false ->
  exists e w',
    upload_attachment cfg net filename issue_key w = (Raise e, w') /\
    (e = AttributeError \/
     (exists no, e = OSError no (os_path_join "tmp" filename)) /\
     (ERROR, "File " +:+ os_path_join "tmp" filename +:+ " not found") ∈ log w') /\
    trace w' = trace w /\ fs w' = fs w.
Proof.
  intros Hmiss. unfold upload_attachment.
  destruct (default_issue_key_spec cfg issue_key w) as [l0 E0].
  rewrite (bind_return _ _ _ _ _ E0).
  destruct (if truthy_opt issue_key then issue_key else ISSUE_KEY cfg) as [k|].
  2:{ eexists _, _. split; [reflexivity|]. split; [left; reflexivity|].
      split; reflexivity. }
  set (w1 := with_log (log w ++ l0) w) in *.
  destruct (check_project_spec cfg k w1) as [l1 [E1 _]].
  rewrite (bind_return _ _ _ _ _ E1). cbv zeta.
  set (w2 := with_log (log w1 ++ l1) w1) in *.
  set (path := os_path_join "tmp" filename) in *.
  assert (Hmiss2 : forall l, (os_path_exists path (with_log l w2)).1 = Return false).
  { intros l. subst w2 w1. rewrite !os_path_exists_with_log. exact Hmiss. }
  assert (E2 : os_path_exists path w2 = (Return false, w2)).
  { specialize (Hmiss2 (log w2)). revert Hmiss2. unfold os_path_exists.
    rewrite resolve_with_log. destruct (resolve w2 path); simpl; congruence. }
  rewrite (bind_return _ _ _ _ _ E2).
  destruct (open_rb_missing path _ (Hmiss2 (log w2 ++ [(ERROR, "File " +:+ path
                                                       +:+ " not found")])))
    as [no Eo].
  eexists _, _. split.
  { py_unfold. simpl. py_unfold. simpl in Eo. rewrite Eo. reflexivity. }
  split; [|split; reflexivity].
  right. split; [eauto|]. simpl. apply elem_of_app. right.
  apply list_elem_of_singleton. reflexivity.
Qed.

Lemma upload_attachment_missing_file_raises_witness :
  exists e w',
    upload_attachment Sample.cfg_unset Sample.net_down "report.pdf" (Some "DA-4")
      Sample.w_tmp = (Raise e, w') /\
    (e = AttributeError \/
     (exists no, e = OSError no (os_path_join "tmp" "report.pdf")) /\
     (ERROR, "File " +:+ os_path_join "tmp" "report.pdf" +:+ " not found") ∈ log w') /\
    trace w' = trace Sample.w_tmp /\ fs w' = fs Sample.w_tmp.
Proof.
  apply (upload_attachment_missing_file_raises Sample.cfg_unset Sample.net_down
           "report.pdf" (Some "DA-4") Sample.w_tmp).
  vm_compute. reflexivity.
Defined.

(** ** A relation between worlds that every step of a tool respects

    Whatever relation is reflexive, transitive, and holds across a log
    record, a recorded call, the creation of a directory where nothing was
    and the writing of a file where no directory is, holds between the
    world before and the world after each tool. *)

Section Respects.
Variable R : world -> world -> Prop.
Hypothesis R_refl : forall w, R w w.
Hypothesis R_trans : forall a b c, R a b -> R b c -> R a c.
Hypothesis R_log : forall w l, R w (with_log (log w ++ l) w).
Hypothesis R_trace : forall w q, R w (with_trace (trace w ++ [q]) w).
Hypothesis R_mkdir : forall w k,
  present (fs w) k = false -> R w (with_fs (<[k := Dir]> (fs w)) w).
Hypothesis R_write : forall w k data,
  is_dir (fs w) k = false -> R w (with_fs (<[k := File data]> (fs w)) w).

Lemma respects_ret {A : Type} (a : A) : respects R (mret a).
Proof. intros w. apply R_refl. Qed.

Lemma respects_raise {A : Type} (e : exn) : respects R (@raise A e).
Proof. intros w. apply R_refl. Qed.

Lemma respects_bind {A B : Type} (m : py A) (f : A -> py B) :
  respects R m -> (forall a, respects R (f a)) -> respects R (m ≫= f).
Proof.
  intros Hm Hf w. rewrite bind_eq. specialize (Hm w).
  destruct (m w) as [[a|e] w1]; simpl in *; [|exact Hm].
  eapply R_trans; [exact Hm|apply Hf].
Qed.

Lemma respects_try_except {A : Type} (body : py A) (handler : string -> py A) :
  respects R body -> (forall msg, respects R (handler msg)) ->
  respects R (try_except body handler).
Proof.
  intros Hb Hh w. unfold try_except. specialize (Hb w).
  destruct (body w) as [[a|[]] w1]; simpl in *; try exact Hb.
  eapply R_trans; [exact Hb|apply Hh].
Qed.

Lemma respects_try_except_all {A : Type} (body : py A) (handler : exn -> py A) :
  respects R body -> (forall e, respects R (handler e)) ->
  respects R (try_except_all body handler).
Proof.
  intros Hb Hh w. unfold try_except_all. specialize (Hb w).
  destruct (body w) as [[a|e] w1]; simpl in *; [exact Hb|].
  eapply R_trans; [exact Hb|apply Hh].
Qed.

Lemma respects_logger lv msg : respects R (logger lv msg).
Proof. intros w. apply R_log. Qed.

Lemma respects_when b m : respects R m -> respects R (when b m).
Proof. intros Hm. destruct b; [exact Hm|apply respects_ret]. Qed.

Lemma respects_py_get v k d : respects R (py_get v k d).
Proof. destruct v; first [apply respects_ret | apply respects_raise]. Qed.

Lemma respects_py_getitem v k : respects R (py_getitem v k).
Proof.
  destruct v; simpl; try apply respects_raise.
  destruct (dict_get kvs k); [apply respects_ret | apply respects_raise].
Qed.

Lemma respects_py_iter v : respects R (py_iter v).
Proof. destruct v; first [apply respects_ret | apply respects_raise]. Qed.

Lemma respects_raise_for_status r : respects R (raise_for_status r).
Proof.
  unfold raise_for_status.
  repeat match goal with |- respects R (if ?b then _ else _) => destruct b end;
    first [apply respects_ret | apply respects_raise].
Qed.

Lemma respects_response_json r : respects R (response_json r).
Proof.
  unfold response_json.
  destruct (body r); [apply respects_raise | apply respects_ret].
Qed.

Lemma respects_send net q : respects R (send net q).
Proof. intros w. unfold send. destruct (net (trace w) q); apply R_trace. Qed.

Lemma respects_os_path_exists path : respects R (os_path_exists path).
Proof. intros w. unfold os_path_exists. destruct (resolve w path); apply R_refl. Qed.

Lemma respects_os_path_isfile path : respects R (os_path_isfile path).
Proof. intros w. unfold os_path_isfile. destruct (resolve w path); apply R_refl. Qed.

Lemma respects_os_path_isdir path : respects R (os_path_isdir path).
Proof. intros w. unfold os_path_isdir. destruct (resolve w path); apply R_refl. Qed.

Lemma respects_os_mkdir path : respects R (os_mkdir path).
Proof.
  intros w. unfold os_mkdir.
  destruct (resolve w path) as [no|k]; [apply R_refl|].
  destruct (present (fs w) k) eqn:E; [apply R_refl|]. simpl. by apply R_mkdir.
Qed.

Lemma respects_os_makedirs_exist_ok name : respects R (os_makedirs_exist_ok name).
Proof.
  apply respects_try_except_all; [apply respects_os_mkdir|].
  intros e. apply respects_bind; [apply respects_os_path_isdir|].
  intros []; [apply respects_ret | apply respects_raise].
Qed.

Lemma respects_open_rb path : respects R (open_rb path).
Proof.
  intros w. unfold open_rb.
  destruct (resolve w path) as [no|k]; [apply R_refl|].
  destruct (fs w !! k) as [[]|]; apply R_refl.
Qed.

Lemma respects_open_wb_write path data : respects R (open_wb_write path data).
Proof.
  intros w. unfold open_wb_write.
  destruct (resolve w path) as [no|k]; [apply R_refl|].
  destruct (is_dir (fs w) k) eqn:E; [apply R_refl|]. simpl. by apply R_write.
Qed.

Lemma respects_os_listdir path : respects R (os_listdir path).
Proof.
  intros w. unfold os_listdir.
  destruct (resolve w path) as [no|k]; [apply R_refl|].
  destruct (is_dir (fs w) k); [apply R_refl|].
  destruct (present (fs w) k); apply R_refl.
Qed.

Ltac respects_step :=
  match goal with
  | |- respects R (mret _) => apply respects_ret
  | |- respects R (raise _) => apply respects_raise
  | |- respects R (_ ≫= _) => apply respects_bind; [|intros]
  | |- respects R (try_except _ _) => apply respects_try_except; [|intros]
  | |- respects R (try_except_all _ _) => apply respects_try_except_all; [|intros]
  | |- respects R (when _ _) => apply respects_when
  | |- respects R (logger_error _) => apply respects_logger
  | |- respects R (logger_warning _) => apply respects_logger
  | |- respects R (logger_info _) => apply respects_logger
  | |- respects R (logger_debug _) => apply respects_logger
  | |- respects R (py_get _ _ _) => apply respects_py_get
  | |- respects R (py_getitem _ _) => apply respects_py_getitem
  | |- respects R (py_iter _) => apply respects_py_iter
  | |- respects R (raise_for_status _) => apply respects_raise_for_status
  | |- respects R (response_json _) => apply respects_response_json
  | |- respects R (requests_get _ _ _ _) => apply respects_send
  | |- respects R (requests_post _ _ _ _ _) => apply respects_send
  | |- respects R (os_path_exists _) => apply respects_os_path_exists
  | |- respects R (os_path_isfile _) => apply respects_os_path_isfile
  | |- respects R (os_makedirs_exist_ok _) => apply respects_os_makedirs_exist_ok
  | |- respects R (open_rb _) => apply respects_open_rb
  | |- respects R (open_wb_write _ _) => apply respects_open_wb_write
  | |- respects R (os_listdir _) => apply respects_os_listdir
  | |- respects R (if ?b then _ else _) => destruct b
  | |- respects R (match ?x with _ => _ end) => destruct x
  end.

Lemma respects_find_epic_name fields : respects R (find_epic_name fields).
Proof.
  induction fields as [|field rest IH]; simpl; [apply respects_ret|].
  repeat respects_step. exact IH.
Qed.

Lemma respects_get_epic_name_field_id cfg net :
  respects R (get_epic_name_field_id cfg net).
Proof.
  unfold get_epic_name_field_id. cbv zeta.
  repeat respects_step. apply respects_find_epic_name.
Qed.

Lemma respects_get_project_info cfg net : respects R (get_project_info cfg net).
Proof. unfold get_project_info. cbv zeta. repeat respects_step. Qed.

Lemma respects_default_issue_key cfg issue_key :
  respects R (default_issue_key cfg issue_key).
Proof. unfold default_issue_key. repeat respects_step. Qed.

Lemma respects_check_project cfg issue_key :
  respects R (check_project cfg issue_key).
Proof. unfold check_project. repeat respects_step. Qed.

Lemma respects_download_each cfg net attachments saved_files :
  respects R (download_each cfg net attachments saved_files).
Proof.
  revert saved_files.
  induction attachments as [|attachment rest IH]; intros saved_files; simpl;
    [apply respects_ret|].
  repeat respects_step; apply IH.
Qed.

Lemma respects_download_attachments cfg net issue_key :
  respects R (download_attachments cfg net issue_key).
Proof.
  unfold download_attachments.
  apply respects_bind; [apply respects_default_issue_key|intros].
  apply respects_bind; [apply respects_check_project|intros]. cbv zeta.
  repeat respects_step. apply respects_download_each.
Qed.

Lemma respects_upload_attachment cfg net filename issue_key :
  respects R (upload_attachment cfg net filename issue_key).
Proof.
  unfold upload_attachment.
  apply respects_bind; [apply respects_default_issue_key|intros].
  apply respects_bind; [apply respects_check_project|intros]. cbv zeta.
  repeat respects_step.
Qed.

Lemma respects_keep_files tmp_dir names : respects R (keep_files tmp_dir names).
Proof.
  induction names as [|f rest IH]; simpl; [apply respects_ret|].
  repeat respects_step. exact IH.
Qed.

Lemma respects_list_tmp_files : respects R list_tmp_files.
Proof.
  unfold list_tmp_files. cbv zeta.
  repeat respects_step. apply respects_keep_files.
Qed.
End Respects.

(** ** Nothing is deleted *)

Lemma preserved_refl t : preserved t t.
Proof. intros p. destruct (t !! p) as [[]|]; eauto. Qed.

Lemma preserved_trans a b c : preserved a b -> preserved b c -> preserved a c.
Proof.
  intros Hab Hbc p. specialize (Hab p). specialize (Hbc p).
  destruct (a !! p) as [[]|]; [| |exact I].
  - destruct Hab as [d E]. rewrite E in Hbc. exact Hbc.
  - rewrite Hab in Hbc. exact Hbc.
Qed.

Lemma present_false t k : present t k = false -> t !! k = None.
Proof.
  unfold present. destruct k; [discriminate|].
  intros H. apply bool_decide_eq_false in H.
  destruct (t !! (s :: k)); [|reflexivity]. exfalso. apply H. eauto.
Qed.

Lemma preserved_mkdir (t : gmap (list string) node) k :
  present t k = false -> preserved t (<[k := Dir]> t).
Proof.
  intros Hk p. apply present_false in Hk.
  destruct (t !! p) as [n|] eqn:E; [|exact I].
  assert (k <> p) by congruence.
  rewrite lookup_insert_ne by assumption. rewrite E. destruct n; eauto.
Qed.

Lemma preserved_write (t : gmap (list string) node) k data :
  is_dir t k = false -> preserved t (<[k := File data]> t).
Proof.
  intros Hk p. destruct (t !! p) as [n|] eqn:E; [|exact I].
  destruct (decide (k = p)) as [->|Hne].
  - rewrite lookup_insert_eq. destruct n; [eauto|].
    unfold is_dir in Hk. rewrite E in Hk. destruct p; discriminate.
  - rewrite lookup_insert_ne by assumption. rewrite E. destruct n; eauto.
Qed.

Lemma keeps_nodes_trans a b c : keeps_nodes a b -> keeps_nodes b c -> keeps_nodes a c.
Proof. apply preserved_trans. Qed.

Lemma same_nodes_trans a b c : same_nodes a b -> same_nodes b c -> same_nodes a c.
Proof. unfold same_nodes. congruence. Qed.

(** C5.  No tool deletes anything: every file and directory present before
    a call is present after it, whatever the arguments, the remote side
    and the outcome; [download_attachments] only adds or overwrites, and
    the other four tools leave the file system as it was. *)
Theorem no_file_deleted cfg net w :
  preserved (fs w) (fs (get_epic_name_field_id cfg net w).2) /\
  preserved (fs w) (fs (get_project_info cfg net w).2) /\
  (forall issue_key,
     preserved (fs w) (fs (download_attachments cfg net issue_key w).2)) /\
  (forall filename issue_key,
     preserved (fs w) (fs (upload_attachment cfg net filename issue_key w).2) /\
     fs (upload_attachment cfg net filename issue_key w).2 = fs w) /\
  preserved (fs w) (fs (list_tmp_files w).2) /\
  fs (list_tmp_files w).2 = fs w.
Proof.
  assert (Hk : forall w, keeps_nodes w w) by (intros; apply preserved_refl).
  assert (Hs : forall w, same_nodes w w) by reflexivity.
  assert (Hup : forall filename issue_key,
             fs (upload_attachment cfg net filename issue_key w).2 = fs w).
  { intros. by apply (respects_upload_attachment same_nodes Hs same_nodes_trans). }
  assert (Hls : fs (list_tmp_files w).2 = fs w).
  { by apply (respects_list_tmp_files same_nodes Hs same_nodes_trans). }
  repeat split.
  - apply (respects_get_epic_name_field_id keeps_nodes Hk keeps_nodes_trans);
      intros; apply preserved_refl.
  - apply (respects_get_project_info keeps_nodes Hk keeps_nodes_trans);
      intros; apply preserved_refl.
  - intros issue_key.
    apply (respects_download_attachments keeps_nodes Hk keeps_nodes_trans);
      intros; first [by apply preserved_mkdir | by apply preserved_write
                    | apply preserved_refl].
  - rewrite Hup. apply preserved_refl.
  - apply Hup.
  - rewrite Hls. apply preserved_refl.
  - exact Hls.
Qed.

(** ** Failing calls *)

Lemma grows_refl w : grows w w.
Proof. exists []. by rewrite app_nil_r. Qed.

Lemma grows_same_log w w' : log w' = log w -> grows w w'.
Proof. intros E. exists []. by rewrite app_nil_r. Qed.

Lemma grows_trans a b c : grows a b -> grows b c -> grows a c.
Proof.
  intros [l1 E1] [l2 E2]. exists (l1 ++ l2). by rewrite E2, E1, app_assoc.
Qed.

Lemma quiet_refl w : quiet w w.
Proof. split; [apply grows_refl|reflexivity]. Qed.

Lemma quiet_trans a b c : quiet a b -> quiet b c -> quiet a c.
Proof.
  intros [G1 T1] [G2 T2]. split; [by eapply grows_trans|congruence].
Qed.

Lemma quiet_log w l : quiet w (with_log (log w ++ l) w).
Proof. split; [by exists l|reflexivity]. Qed.

Lemma quiet_mkdir w k :
  present (fs w) k = false -> quiet w (with_fs (<[k := Dir]> (fs w)) w).
Proof. intros _. split; [by apply grows_same_log|reflexivity]. Qed.

Lemma quiet_write w k data :
  is_dir (fs w) k = false -> quiet w (with_fs (<[k := File data]> (fs w)) w).
Proof. intros _. split; [by apply grows_same_log|reflexivity]. Qed.

Lemma raise_for_status_spec r w :
  (failing (Answer r) = true /\
   exists msg, raise_for_status r w = (Raise (RequestException msg), w)) \/
  (failing (Answer r) = false /\ raise_for_status r w = (Return tt, w)).
Proof.
  unfold raise_for_status, failing.
  destruct (400 <=? status_code r) eqn:E1, (status_code r <? 500) eqn:E2,
    (500 <=? status_code r) eqn:E3, (status_code r <? 600) eqn:E4;
    simpl; eauto; lia.
Qed.

Section Handling.
Variable net : remote.

Lemma tame_quiet {A : Type} (m : py A) : respects quiet m -> tame net m.
Proof.
  intros Hq w. destruct (Hq w) as [G T]. split; [exact G|].
  exists []. split; [by rewrite app_nil_r|].
  intros [|] ? ? ?; discriminate.
Qed.

Lemma tame_bind {A B : Type} (m : py A) (f : A -> py B) :
  tame net m -> (forall a, tame net (f a)) -> tame net (m ≫= f).
Proof.
  intros Hm Hf w. rewrite bind_eq.
  destruct (Hm w) as (G1 & n1 & T1 & F1).
  destruct (m w) as [[a|e] w1]; simpl in *.
  2:{ split; [exact G1|]. exists n1. split; [exact T1|].
      intros pre q post Hs Hq. destruct (F1 pre q post Hs Hq) as [-> [msg [=->]]].
      eauto. }
  destruct (Hf a w1) as (G2 & n2 & T2 & F2).
  split; [by eapply grows_trans|].
  exists (n1 ++ n2). split; [by rewrite T2, T1, app_assoc|].
  intros pre q post Hsplit Hq.
  apply app_eq_app in Hsplit as [l [[-> Hl]|[-> ->]]].
  - destruct l as [|q' l']; simpl in Hl.
    + subst n2. apply (F2 [] q post eq_refl).
      by rewrite T1, !app_nil_r in *.
    + injection Hl as <- ->.
      destruct (F1 pre q l' eq_refl Hq) as [_ [msg ?]]. discriminate.
  - apply (F2 l q post eq_refl). by rewrite T1, <- app_assoc.
Qed.

Lemma tame_send_checked {A : Type} q (k : response -> py A) :
  (forall resp, tame net (k resp)) ->
  tame net (send net q ≫= fun resp => raise_for_status resp ≫= fun _ => k resp).
Proof.
  intros Hk w. rewrite bind_eq. unfold send.
  destruct (net (trace w) q) as [msg|resp] eqn:En; simpl.
  { split; [by apply grows_same_log|]. exists [q]. split; [reflexivity|].
    intros [|? [|]] ? ? [=] _; subst; eauto. }
  set (w1 := with_trace (trace w ++ [q]) w).
  rewrite bind_eq.
  destruct (raise_for_status_spec resp w1) as [[Hbad [msg ->]]|[Hgood ->]]; simpl.
  { split; [by apply grows_same_log|]. exists [q]. split; [reflexivity|].
    intros [|? [|]] ? ? [=] _; subst; eauto. }
  destruct (Hk resp w1) as (G & n & T & F).
  split; [exact G|].
  exists (q :: n). split; [by rewrite T; simpl; rewrite <- app_assoc|].
  intros [|q0 pre] q' post [=] Hq; subst.
  - rewrite app_nil_r, En in Hq. congruence.
  - apply (F pre q' post eq_refl). simpl. by rewrite <- app_assoc.
Qed.

Lemma handled_try (body : py pyval) (h : string -> string) :
  tame net body ->
  handled net (try_except body (fun e => logger_error (h e) ≫= fun _ => mret PNone)).
Proof.
  intros Hb w. destruct (Hb w) as ([l G] & n & T & F). unfold try_except.
  destruct (body w) as [[a|e] w1]; simpl in *.
  - split; [discriminate|]. intros pre q post Ht Hq.
    rewrite T in Ht. apply app_inv_head in Ht.
    destruct (F pre q post Ht Hq) as [_ [msg ?]]. discriminate.
  - destruct e as [msg| | | |]; simpl;
      try (split; [discriminate|]; intros pre q post Ht Hq;
           rewrite T in Ht; apply app_inv_head in Ht;
           destruct (F pre q post Ht Hq) as [_ [msg ?]]; discriminate).
    split; [discriminate|]. intros pre q post Ht Hq.
    rewrite T in Ht. apply app_inv_head in Ht.
    destruct (F pre q post Ht Hq) as [-> _].
    repeat split. exists l, (h msg). by rewrite G, app_assoc.
Qed.

Lemma handled_calm_bind {A : Type} (m : py A) (f : A -> py pyval) :
  calm m -> (forall a, handled net (f a)) -> handled net (m ≫= f).
Proof.
  intros Hm Hf w. rewrite bind_eq.
  destruct (Hm w) as [[[l0 G] T] N].
  destruct (m w) as [[a|e] w1]; simpl in *.
  - destruct (Hf a w1) as [N1 F1]. split; [exact N1|].
    intros pre q post Ht Hq. rewrite <- T in Ht, Hq.
    destruct (F1 pre q post Ht Hq) as (-> & -> & l & msg & E).
    repeat split. exists (l0 ++ l), msg. by rewrite E, G, !app_assoc.
  - split; [intros msg [=->]; by apply (N msg)|].
    intros pre q post Ht _. rewrite T in Ht.
    apply (f_equal length) in Ht. rewrite !length_app in Ht. simpl in Ht. lia.
Qed.
End Handling.

Section HandlingTools.
Variable cfg : config.
Variable net : remote.

Create HintDb quiet.
#[local] Hint Resolve quiet_refl quiet_log quiet_mkdir quiet_write : quiet.
#[local] Hint Resolve respects_ret respects_raise respects_logger
  respects_py_get respects_py_getitem respects_py_iter
  respects_raise_for_status respects_response_json
  respects_os_path_exists respects_os_makedirs_exist_ok
  respects_open_rb respects_open_wb_write : quiet.

Ltac tame_prim :=
  apply tame_quiet;
  unfold logger_error, logger_warning, logger_info, logger_debug;
  first [ apply respects_os_makedirs_exist_ok;
          solve [eauto using quiet_trans with quiet]
        | solve [eauto with quiet] ].

Ltac tame_step :=
  match goal with
  | |- tame _ (requests_get _ _ _ _ ≫= _) =>
      unfold requests_get; apply tame_send_checked; intros
  | |- tame _ (requests_post _ _ _ _ _ ≫= _) =>
      unfold requests_post; apply tame_send_checked; intros
  | |- tame _ (_ ≫= _) => apply tame_bind; [|intros]
  | |- tame _ (if ?b then _ else _) => destruct b
  | |- tame _ (match ?x with _ => _ end) => destruct x
  | |- tame _ _ => tame_prim
  end.

Lemma tame_find_epic_name fields : tame net (find_epic_name fields).
Proof.
  induction fields as [|field rest IH]; simpl; [tame_prim|].
  apply tame_bind; [tame_prim|intros name].
  destruct (py_eq_str name "Epic Name"); [tame_prim|exact IH].
Qed.

Lemma tame_download_each attachments saved_files :
  tame net (download_each cfg net attachments saved_files).
Proof.
  revert saved_files.
  induction attachments as [|attachment rest IH]; intros saved_files; simpl;
    [tame_prim|].
  apply tame_bind; [tame_prim|intros file_url].
  apply tame_bind; [tame_prim|intros file_name].
  unfold requests_get. apply tame_send_checked. intros file_response.
  apply tame_bind; [destruct file_name; tame_prim|intros file_path].
  apply tame_bind; [tame_prim|intros _].
  apply tame_bind; [tame_prim|intros _].
  apply IH.
Qed.

Lemma calm_default_issue_key issue_key : calm (default_issue_key cfg issue_key).
Proof.
  intros w. destruct (default_issue_key_spec cfg issue_key w) as [l ->].
  split; [apply quiet_log|discriminate].
Qed.

Lemma calm_check_project issue_key : calm (check_project cfg issue_key).
Proof.
  intros w. destruct issue_key as [k|].
  - destruct (check_project_spec cfg k w) as [l [-> _]].
    split; [apply quiet_log|discriminate].
  - split; [apply quiet_refl|discriminate].
Qed.

Lemma calm_os_path_exists path : calm (os_path_exists path).
Proof.
  intros w. unfold os_path_exists.
  destruct (resolve w path); (split; [apply quiet_refl|discriminate]).
Qed.

Lemma calm_when_logger b lv msg : calm (when b (logger lv msg)).
Proof.
  intros w. destruct b; simpl.
  - split; [apply quiet_log|discriminate].
  - split; [apply quiet_refl|discriminate].
Qed.

Lemma handled_get_epic_name_field_id :
  handled net (get_epic_name_field_id cfg net).
Proof.
  unfold get_epic_name_field_id. cbv zeta. apply handled_try.
  repeat tame_step. apply tame_find_epic_name.
Qed.

Lemma handled_get_project_info : handled net (get_project_info cfg net).
Proof.
  unfold get_project_info. cbv zeta.
  apply (handled_try net _
           (fun e => "Error fetching project info for "
                     +:+ fstr (PROJECT_KEY cfg) +:+ ": " +:+ e)).
  repeat tame_step.
Qed.

Lemma handled_download_attachments issue_key :
  handled net (download_attachments cfg net issue_key).
Proof.
  unfold download_attachments.
  apply handled_calm_bind; [apply calm_default_issue_key|intros k0].
  apply handled_calm_bind; [apply calm_check_project|intros k]. cbv zeta.
  apply (handled_try net _
           (fun e => "Error downloading attachments for " +:+ k +:+ ": " +:+ e)).
  unfold requests_get. apply tame_send_checked. intros response.
  apply tame_bind; [tame_prim|intros issue].
  apply tame_bind; [tame_prim|intros fields].
  apply tame_bind; [tame_prim|intros attachments].
  apply tame_bind; [tame_prim|intros _].
  destruct (negb (truthy attachments)).
  - apply tame_bind; [tame_prim|intros _]. tame_prim.
  - apply tame_bind; [tame_prim|intros items].
    apply tame_bind; [apply tame_download_each|intros saved_files]. tame_prim.
Qed.

Lemma handled_upload_attachment filename issue_key :
  handled net (upload_attachment cfg net filename issue_key).
Proof.
  unfold upload_attachment.
  apply handled_calm_bind; [apply calm_default_issue_key|intros k0].
  apply handled_calm_bind; [apply calm_check_project|intros k]. cbv zeta.
  apply handled_calm_bind; [apply calm_os_path_exists|intros found].
  apply handled_calm_bind; [apply calm_when_logger|intros _].
  apply (handled_try net _
           (fun e => "Error uploading " +:+ filename +:+ " to " +:+ k
                     +:+ ": " +:+ e)).
  apply tame_bind; [tame_prim|intros f].
  unfold requests_post. apply tame_send_checked. intros response.
  apply tame_bind; [tame_prim|intros _]. tame_prim.
Qed.
End HandlingTools.

(** C3.  In each of the four tools that talk to Jira, a call that fails
    (it raises, or [raise_for_status] raises for its status) is the last
    call the tool makes (so nothing is retried), the tool returns [None],
    a new [ERROR] record ends the log, and no [RequestException] ever
    leaves the tool. *)
Theorem request_failures_are_handled cfg net :
  handled net (get_epic_name_field_id cfg net) /\
  handled net (get_project_info cfg net) /\
  (forall issue_key, handled net (download_attachments cfg net issue_key)) /\
  (forall filename issue_key,
     handled net (upload_attachment cfg net filename issue_key)).
Proof.
  split; [apply handled_get_epic_name_field_id|].
  split; [apply handled_get_project_info|].
  split; [apply handled_download_attachments|apply handled_upload_attachment].
Qed.

Lemma request_failures_are_handled_witness :
  (download_attachments Sample.cfg_unset Sample.net_down (Some "DA-4")
     Sample.w_fresh).1 = Return PNone /\
  (upload_attachment Sample.cfg_unset Sample.net_down "notes.txt" (Some "DA-4")
     Sample.w_tmp).1 = Return PNone.
Proof.
  destruct (request_failures_are_handled Sample.cfg_unset Sample.net_down)
    as (_ & _ & Hd & Hu).
  split.
  - apply (proj2 (Hd (Some "DA-4") Sample.w_fresh) []
             (issue_request Sample.cfg_unset "DA-4") []); reflexivity.
  - apply (proj2 (Hu "notes.txt" (Some "DA-4") Sample.w_tmp) []
             (attach_request Sample.cfg_unset "DA-4" "notes.txt" Sample.hi) []);
      reflexivity.
Defined.

(** ** The request for the issue *)

Lemma extends_refl w : extends w w.
Proof. split; [apply grows_refl|]. exists []. by rewrite app_nil_r. Qed.

Lemma extends_trans a b c : extends a b -> extends b c -> extends a c.
Proof.
  intros [G1 [n1 T1]] [G2 [n2 T2]]. split; [by eapply grows_trans|].
  exists (n1 ++ n2). by rewrite T2, T1, app_assoc.
Qed.

Lemma extends_log w l : extends w (with_log (log w ++ l) w).
Proof. split; [by exists l|]. exists []. by rewrite app_nil_r. Qed.

Lemma extends_trace w q : extends w (with_trace (trace w ++ [q]) w).
Proof. split; [by apply grows_same_log|]. by exists [q]. Qed.

Lemma extends_mkdir w k :
  present (fs w) k = false -> extends w (with_fs (<[k := Dir]> (fs w)) w).
Proof.
  intros _. split; [by apply grows_same_log|]. exists []. by rewrite app_nil_r.
Qed.

Lemma extends_write w k data :
  is_dir (fs w) k = false -> extends w (with_fs (<[k := File data]> (fs w)) w).
Proof.
  intros _. split; [by apply grows_same_log|]. exists []. by rewrite app_nil_r.
Qed.

Create HintDb extends.
#[local] Hint Resolve extends_refl extends_log extends_trace extends_mkdir
  extends_write : extends.

Ltac extends_side := solve [eauto using extends_trans with extends].

Ltac extends_step :=
  match goal with
  | |- forall _, respects _ _ => intros
  | |- respects _ (download_each _ _ _ _) =>
      apply respects_download_each; extends_side
  | |- respects _ (_ ≫= _) => apply respects_bind; [extends_side| |]
  | |- respects _ (if ?b then _ else _) => destruct b
  | |- respects _ (match ?x with _ => _ end) => destruct x
  | |- respects _ (logger_error _) => apply respects_logger; extends_side
  | |- respects _ (logger_info _) => apply respects_logger; extends_side
  | |- respects _ (logger_debug _) => apply respects_logger; extends_side
  | |- respects _ (mret _) => apply respects_ret; extends_side
  | |- respects _ (raise _) => apply respects_raise; extends_side
  | |- respects _ (py_get _ _ _) => apply respects_py_get; extends_side
  | |- respects _ (py_iter _) => apply respects_py_iter; extends_side
  | |- respects _ (raise_for_status _) =>
      apply respects_raise_for_status; extends_side
  | |- respects _ (response_json _) => apply respects_response_json; extends_side
  | |- respects _ (os_makedirs_exist_ok _) =>
      apply respects_os_makedirs_exist_ok; extends_side
  end.

(** A guarded block that starts with a call: the call is recorded first,
    whatever happens next. *)
Lemma try_send_first {A : Type} net q (k : response -> py A) handler w :
  (forall resp, respects extends (k resp)) ->
  (forall msg, respects extends (handler msg)) ->
  grows w (try_except (send net q ≫= k) handler w).2 /\
  exists rest,
    trace (try_except (send net q ≫= k) handler w).2 = trace w ++ q :: rest.
Proof.
  intros Hk Hh. unfold try_except. rewrite bind_eq. unfold send.
  set (w1 := with_trace (trace w ++ [q]) w).
  assert (E1 : extends w w1) by apply extends_trace.
  assert (Hfin : forall w', extends w1 w' ->
            grows w w' /\ exists rest, trace w' = trace w ++ q :: rest).
  { intros w' [G [n T]]. split; [eapply grows_trans; [apply E1|exact G]|].
    exists n. rewrite T. simpl. by rewrite <- app_assoc. }
  destruct (net (trace w) q) as [msg|resp].
  - apply Hfin, Hh.
  - specialize (Hk resp w1). destruct (k resp w1) as [[a|e] w2]; simpl in *.
    + by apply Hfin.
    + destruct e; try by apply Hfin.
      apply Hfin. eapply extends_trans; [exact Hk|apply Hh].
Qed.

Lemma download_attachments_request cfg net issue_key k w :
  (default_issue_key cfg issue_key w).1 = Return (Some k) ->
  (exists rest,
     trace (download_attachments cfg net issue_key w).2
     = trace w ++ issue_request cfg k :: rest) /\
  (String.prefix (fstr (PROJECT_KEY cfg) +:+ "-") k = false ->
   (WARNING, "Issue key " +:+ k +:+ " does not belong to configured project "
             +:+ fstr (PROJECT_KEY cfg))
   ∈ log (download_attachments cfg net issue_key w).2).
Proof.
  intros Hkey. unfold download_attachments.
  destruct (default_issue_key_spec cfg issue_key w) as [l0 E0].
  rewrite E0 in Hkey. simpl in Hkey. injection Hkey as Hkey.
  rewrite Hkey in E0. rewrite (bind_return _ _ _ _ _ E0).
  set (w1 := with_log (log w ++ l0) w).
  destruct (check_project_spec cfg k w1) as [l1 [E1 Hwarn]].
  rewrite (bind_return _ _ _ _ _ E1). cbv zeta.
  set (w2 := with_log (log w1 ++ l1) w1).
  unfold requests_get.
  match goal with
  | |- context [try_except (send net ?q ≫= ?k) ?h w2] =>
      destruct (try_send_first net q k h w2) as [[l G] [rest T]]
  end.
  { repeat extends_step. }
  { repeat extends_step. }
  split.
  - exists rest. exact T.
  - intros Hp. rewrite G. unfold w2. simpl. rewrite (Hwarn Hp).
    rewrite !elem_of_app. left. right. apply list_elem_of_singleton. reflexivity.
Qed.

Lemma open_rb_with_log l w path :
  open_rb path (with_log l w) = ((open_rb path w).1, with_log l w).
Proof.
  unfold open_rb. rewrite resolve_with_log.
  destruct (resolve w path) as [no|p]; [reflexivity|]. simpl.
  destruct (fs w !! p) as [[]|]; reflexivity.
Qed.

Lemma open_rb_exists path data w :
  (open_rb path w).1 = Return data -> (os_path_exists path w).1 = Return true.
Proof.
  unfold open_rb, os_path_exists.
  destruct (resolve w path) as [no|p]; [discriminate|].
  destruct (fs w !! p) as [[d|]|] eqn:E; try discriminate.
  intros _. simpl. f_equal. unfold present. destruct p; [reflexivity|].
  apply bool_decide_eq_true. rewrite E. eauto.
Qed.

Lemma ret_bind {A B : Type} (a : A) (f : A -> py B) w : (mret a ≫= f) w = f a w.
Proof. reflexivity. Qed.

Lemma upload_attachment_request cfg net filename issue_key k data w :
  (default_issue_key cfg issue_key w).1 = Return (Some k) ->
  (open_rb (os_path_join "tmp" filename) w).1 = Return data ->
  trace (upload_attachment cfg net filename issue_key w).2
  = trace w ++ [attach_request cfg k filename data] /\
  (String.prefix (fstr (PROJECT_KEY cfg) +:+ "-") k = false ->
   (WARNING, "Issue key " +:+ k +:+ " does not belong to configured project "
             +:+ fstr (PROJECT_KEY cfg))
   ∈ log (upload_attachment cfg net filename issue_key w).2).
Proof.
  intros Hkey Hopen. unfold upload_attachment.
  destruct (default_issue_key_spec cfg issue_key w) as [l0 E0].
  rewrite E0 in Hkey. simpl in Hkey. injection Hkey as Hkey.
  rewrite Hkey in E0. rewrite (bind_return _ _ _ _ _ E0).
  set (w1 := with_log (log w ++ l0) w).
  destruct (check_project_spec cfg k w1) as [l1 [E1 Hwarn]].
  rewrite (bind_return _ _ _ _ _ E1). cbv zeta.
  set (w2 := with_log (log w1 ++ l1) w1).
  set (path := os_path_join "tmp" filename) in *.
  assert (Eo : open_rb path w2 = (Return data, w2)).
  { subst w2 w1. rewrite !open_rb_with_log, Hopen. reflexivity. }
  assert (Ee : os_path_exists path w2 = (Return true, w2)).
  { apply open_rb_exists in Hopen. subst w2 w1.
    rewrite !os_path_exists_with_log, Hopen. reflexivity. }
  assert (Hwarn' : forall l,
            String.prefix (fstr (PROJECT_KEY cfg) +:+ "-") k = false ->
            (WARNING, "Issue key " +:+ k +:+
                      " does not belong to configured project "
                      +:+ fstr (PROJECT_KEY cfg)) ∈ log w2 ++ l).
  { intros l Hp. unfold w2. simpl. rewrite (Hwarn Hp). rewrite !elem_of_app.
    left. right. apply list_elem_of_singleton. reflexivity. }
  rewrite (bind_return _ _ _ _ _ Ee). simpl negb. unfold when.
  rewrite ret_bind. unfold try_except.
  rewrite (bind_return _ _ _ _ _ Eo). unfold requests_post.
  rewrite bind_eq. unfold send.
  change (trace w2) with (trace w).
  change {| req_method := POST;
            req_url := PStr (fstr (JIRA_URL cfg) +:+ "/rest/api/3/issue/" +:+ k
                             +:+ "/attachments");
            req_auth := auth cfg;
            req_headers := [("X-Atlassian-Token", "no-check")];
            req_files := [("file", (filename, data))] |}
    with (attach_request cfg k filename data).
  set (w3 := with_trace _ w2).
  destruct (net (trace w) _) as [msg|resp]; simpl.
  { split; [reflexivity|]. apply Hwarn'. }
  rewrite bind_eq.
  destruct (raise_for_status_spec resp w3) as [[_ [msg ->]]|[_ ->]]; simpl.
  { split; [reflexivity|]. apply Hwarn'. }
  split; [reflexivity|]. apply Hwarn'.
Qed.

(** Without a readable file [upload_attachment] makes no request. *)
Lemma upload_attachment_unreadable cfg net filename issue_key e w :
  (open_rb (os_path_join "tmp" filename) w).1 = Raise e ->
  trace (upload_attachment cfg net filename issue_key w).2 = trace w.
Proof.
  intros Hopen. unfold upload_attachment.
  destruct (default_issue_key_spec cfg issue_key w) as [l0 E0].
  rewrite (bind_return _ _ _ _ _ E0).
  destruct (if truthy_opt issue_key then issue_key else ISSUE_KEY cfg) as [k|];
    [|reflexivity].
  set (w1 := with_log (log w ++ l0) w).
  destruct (check_project_spec cfg k w1) as [l1 [E1 _]].
  rewrite (bind_return _ _ _ _ _ E1). cbv zeta.
  set (w2 := with_log (log w1 ++ l1) w1).
  set (path := os_path_join "tmp" filename) in *.
  assert (He : exists no, e = OSError no path).
  { revert Hopen. unfold open_rb.
    destruct (resolve w path) as [no|p]; simpl; [intros [= <-]; eauto|].
    destruct (fs w !! p) as [[d|]|]; simpl; intros [= <-]; eauto. }
  destruct He as [no ->].
  assert (Eo : forall l, open_rb path (with_log l w2)
                         = (Raise (OSError no path), with_log l w2)).
  { intros l. subst w2 w1. rewrite !open_rb_with_log, Hopen. reflexivity. }
  assert (Eo2 : open_rb path w2 = (Raise (OSError no path), w2)).
  { subst w2 w1. rewrite !open_rb_with_log, Hopen. reflexivity. }
  assert (Ee : exists b, os_path_exists path w2 = (Return b, w2)).
  { unfold os_path_exists. destruct (resolve w2 path); eauto. }
  destruct Ee as [b Ee]. rewrite (bind_return _ _ _ _ _ Ee).
  destruct b; simpl negb; unfold when.
  - rewrite ret_bind. unfold try_except.
    rewrite (bind_raise _ _ _ _ _ Eo2). reflexivity.
  - rewrite bind_eq. unfold logger_error, logger, try_except.
    rewrite (bind_raise _ _ _ _ _ (Eo _)). reflexivity.
Qed.

Lemma default_issue_key_value cfg issue_key w :
  (default_issue_key cfg issue_key w).1
  = Return (if truthy_opt issue_key then issue_key else ISSUE_KEY cfg).
Proof. destruct (default_issue_key_spec cfg issue_key w) as [l ->]. reflexivity. Qed.

(** C7.  When [issue_key] is omitted or empty and [ISSUE_KEY] is set, both
    attachment tools address the issue named by [ISSUE_KEY]:
    [download_attachments] first requests that issue, and
    [upload_attachment] posts to that issue, once, when the file can be
    read, and makes no request at all when it cannot. *)
Theorem issue_key_defaults_to_environment cfg net issue_key env_key w :
  truthy_opt issue_key = false ->
  ISSUE_KEY cfg = Some env_key ->
  (exists rest,
     trace (download_attachments cfg net issue_key w).2
     = trace w ++ issue_request cfg env_key :: rest) /\
  (forall filename,
     (forall data,
        (open_rb (os_path_join "tmp" filename) w).1 = Return data ->
        trace (upload_attachment cfg net filename issue_key w).2
        = trace w ++ [attach_request cfg env_key filename data]) /\
     (forall e,
        (open_rb (os_path_join "tmp" filename) w).1 = Raise e ->
        trace (upload_attachment cfg net filename issue_key w).2 = trace w)).
Proof.
  intros Hk He.
  assert (Hkey : (default_issue_key cfg issue_key w).1 = Return (Some env_key)).
  { rewrite default_issue_key_value, Hk, He. reflexivity. }
  split.
  - apply (download_attachments_request cfg net issue_key env_key w Hkey).
  - intros filename. split.
    + intros data Hopen.
      apply (upload_attachment_request cfg net filename issue_key env_key data w
               Hkey Hopen).
    + intros e. apply upload_attachment_unreadable.
Qed.

Lemma issue_key_defaults_to_environment_witness :
  (exists rest,
     trace (download_attachments Sample.cfg_env Sample.net_bare None Sample.w_tmp).2
     = trace Sample.w_tmp ++ issue_request Sample.cfg_env "DA-4" :: rest) /\
  trace (upload_attachment Sample.cfg_env Sample.net_bare "notes.txt" (Some "")
           Sample.w_tmp).2
  = trace Sample.w_tmp ++ [attach_request Sample.cfg_env "DA-4" "notes.txt" Sample.hi].
Proof.
  split.
  - apply (issue_key_defaults_to_environment Sample.cfg_env Sample.net_bare None
             "DA-4" Sample.w_tmp eq_refl eq_refl).
  - apply (proj2 (issue_key_defaults_to_environment Sample.cfg_env
                    Sample.net_bare (Some "") "DA-4" Sample.w_tmp
                    eq_refl eq_refl) "notes.txt").
    vm_compute. reflexivity.
Defined.

(** C9.  The project check blocks nothing.  For an issue key [k] (the
    argument, or [ISSUE_KEY] when the argument is falsy) that does not
    start with [PROJECT_KEY] and a dash, both attachment tools log the
    warning and go on with [k] as it is: [download_attachments] requests
    issue [k], and [upload_attachment] posts to issue [k] when the file can
    be read (when it cannot, no request is made, with or without the
    warning). *)
Theorem project_check_never_blocks cfg net issue_key k w :
  (default_issue_key cfg issue_key w).1 = Return (Some k) ->
  String.prefix (fstr (PROJECT_KEY cfg) +:+ "-") k = false ->
  ((exists rest,
      trace (download_attachments cfg net issue_key w).2
      = trace w ++ issue_request cfg k :: rest) /\
   (WARNING, "Issue key " +:+ k +:+ " does not belong to configured project "
             +:+ fstr (PROJECT_KEY cfg))
   ∈ log (download_attachments cfg net issue_key w).2) /\
  (forall filename,
     (forall data,
        (open_rb (os_path_join "tmp" filename) w).1 = Return data ->
        trace (upload_attachment cfg net filename issue_key w).2
        = trace w ++ [attach_request cfg k filename data] /\
        (WARNING, "Issue key " +:+ k +:+ " does not belong to configured project "
                  +:+ fstr (PROJECT_KEY cfg))
        ∈ log (upload_attachment cfg net filename issue_key w).2) /\
     (forall e,
        (open_rb (os_path_join "tmp" filename) w).1 = Raise e ->
        trace (upload_attachment cfg net filename issue_key w).2 = trace w)).
Proof.
  intros Hkey Hp. split.
  - destruct (download_attachments_request cfg net issue_key k w Hkey) as [Ht Hw].
    split; [exact Ht|exact (Hw Hp)].
  - intros filename. split.
    + intros data Hopen.
      destruct (upload_attachment_request cfg net filename issue_key k data w
                  Hkey Hopen) as [Ht Hw].
      split; [exact Ht|exact (Hw Hp)].
    + intros e. apply upload_attachment_unreadable.
Qed.

Lemma project_check_never_blocks_witness :
  ((exists rest,
      trace (download_attachments Sample.cfg_unset Sample.net_bare (Some "XY-9")
               Sample.w_tmp).2
      = trace Sample.w_tmp ++ issue_request Sample.cfg_unset "XY-9" :: rest) /\
   (WARNING, "Issue key XY-9 does not belong to configured project DA")
   ∈ log (download_attachments Sample.cfg_unset Sample.net_bare (Some "XY-9")
            Sample.w_tmp).2) /\
  (trace (upload_attachment Sample.cfg_unset Sample.net_bare "notes.txt"
            (Some "XY-9") Sample.w_tmp).2
   = trace Sample.w_tmp
     ++ [attach_request Sample.cfg_unset "XY-9" "notes.txt" Sample.hi] /\
   (WARNING, "Issue key XY-9 does not belong to configured project DA")
   ∈ log (upload_attachment Sample.cfg_unset Sample.net_bare "notes.txt"
            (Some "XY-9") Sample.w_tmp).2).
Proof.
  destruct (project_check_never_blocks Sample.cfg_unset Sample.net_bare
              (Some "XY-9") "XY-9" Sample.w_tmp eq_refl eq_refl) as [Hd Hu].
  split; [exact Hd|].
  apply (proj1 (Hu "notes.txt") Sample.hi). vm_compute. reflexivity.
Defined.

(** ** Writing outside the scratch directory *)

(** C4 (as the code behaves).  An attachment named [../evil.txt] is
    written to [/srv/evil.txt], next to the scratch directory [/srv/tmp]
    and not inside it. *)
Theorem download_attachments_writes_outside_tmp :
  let w := Sample.w_fresh in
  let w' := (download_attachments Sample.cfg_unset Sample.net_evil (Some "DA-4") w).2 in
  fs w !! ["srv"; "evil.txt"] = None /\
  fs w' !! ["srv"; "evil.txt"] = Some (File Sample.hi) /\
  inside_tmp w ["srv"; "evil.txt"] = false.
Proof. vm_compute. repeat split. Qed.

(** ** Mapping the payloads *)

(** A guarded block whose first call is answered with a good status. *)
Lemma send_checked_answer {A : Type} net q (k : response -> py A) w resp :
  net (trace w) q = Answer resp ->
  failing (Answer resp) = false ->
  (send net q ≫= fun response => raise_for_status response ≫= fun _ => k response) w
  = k resp (with_trace (trace w ++ [q]) w).
Proof.
  intros Hnet Hok. rewrite bind_eq. unfold send. rewrite Hnet.
  rewrite bind_eq.
  destruct (raise_for_status_spec resp (with_trace (trace w ++ [q]) w))
    as [[Hbad _]|[_ ->]]; [congruence|reflexivity].
Qed.

(** C6.  A good answer whose payload is an object is mapped to the dict
    with exactly the keys [project_key], [project_name], [project_id],
    [project_type] and [description]: the configured [PROJECT_KEY], the
    payload's [name], [id] and [projectTypeKey] ([None] for one that is
    missing), and the payload's [description], which is
    ["No description available"] when the payload has none. *)
Theorem get_project_info_maps_payload cfg net w resp kvs :
  net (trace w) (project_request cfg) = Answer resp ->
  failing (Answer resp) = false ->
  body resp = Json (PDict kvs) ->
  get_project_info cfg net w
  = (Return
       (PDict
          [("project_key", of_opt (PROJECT_KEY cfg));
           ("project_name", from_option id PNone (dict_get kvs "name"));
           ("project_id", from_option id PNone (dict_get kvs "id"));
           ("project_type", from_option id PNone (dict_get kvs "projectTypeKey"));
           ("description",
            from_option id (PStr "No description available")
              (dict_get kvs "description"))]),
     with_trace (trace w ++ [project_request cfg]) w) /\
  (dict_get kvs "description" = None ->
   from_option id (PStr "No description available") (dict_get kvs "description")
   = PStr "No description available").
Proof.
  intros Hnet Hok Hbody. split; [|intros ->; reflexivity].
  unfold get_project_info. cbv zeta. unfold try_except, requests_get.
  change {| req_method := GET;
            req_url := PStr (fstr (JIRA_URL cfg) +:+ "/rest/api/3/project/"
                             +:+ fstr (PROJECT_KEY cfg));
            req_auth := auth cfg;
            req_headers := [("Accept", "application/json")];
            req_files := [] |}
    with (project_request cfg).
  rewrite (send_checked_answer net _ _ w resp Hnet Hok).
  unfold response_json. rewrite Hbody. reflexivity.
Qed.

Lemma get_project_info_maps_payload_witness :
  (get_project_info Sample.cfg_unset Sample.net_project Sample.w_fresh).1
  = Return (PDict [("project_key", PStr "DA");
                   ("project_name", PStr "Data");
                   ("project_id", PStr "10000");
                   ("project_type", PStr "software");
                   ("description", PStr "No description available")]).
Proof.
  rewrite (proj1 (get_project_info_maps_payload Sample.cfg_unset
                    Sample.net_project Sample.w_fresh _ _
                    eq_refl eq_refl eq_refl)).
  reflexivity.
Defined.

Lemma named_epic_name kvs :
  py_eq_str (from_option id PNone (dict_get kvs "name")) "Epic Name" = true
  <-> dict_get kvs "name" = Some (PStr "Epic Name").
Proof.
  destruct (dict_get kvs "name") as [v|]; simpl; [|split; discriminate].
  destruct v; simpl; try (split; discriminate).
  rewrite String.eqb_eq. split; [intros ->; reflexivity|intros [=]; assumption].
Qed.

Lemma find_epic_name_first before kvs after v w :
  Forall (fun f => dict_get f "name" <> Some (PStr "Epic Name")) before ->
  dict_get kvs "name" = Some (PStr "Epic Name") ->
  dict_get kvs "id" = Some v ->
  find_epic_name (map PDict before ++ PDict kvs :: after) w = (Return v, w).
Proof.
  intros Hbefore Hname Hid.
  induction Hbefore as [|f before Hf _ IH]; simpl.
  - rewrite ret_bind. apply named_epic_name in Hname. rewrite Hname.
    simpl. rewrite Hid. reflexivity.
  - rewrite ret_bind.
    destruct (py_eq_str _ "Epic Name") eqn:E; [|exact IH].
    apply named_epic_name in E. contradiction.
Qed.

Lemma find_epic_name_none dicts w :
  Forall (fun f => dict_get f "name" <> Some (PStr "Epic Name")) dicts ->
  find_epic_name (map PDict dicts) w = (Return (PStr "customfield_10011"), w).
Proof.
  intros Hall. induction Hall as [|f dicts Hf _ IH]; simpl; [reflexivity|].
  rewrite ret_bind.
  destruct (py_eq_str _ "Epic Name") eqn:E; [|exact IH].
  apply named_epic_name in E. contradiction.
Qed.

(** C8.  On a good answer whose payload is a list, the tool returns the
    [id] of the first field named ["Epic Name"] (the fields before it being
    objects with another name or none), and ["customfield_10011"] when the
    payload is a list of objects none of which has that name. *)
Theorem get_epic_name_field_id_first_match cfg net w resp fields :
  net (trace w) (field_request cfg) = Answer resp ->
  failing (Answer resp) = false ->
  body resp = Json (PList fields) ->
  (forall before kvs after v,
     fields = map PDict before ++ PDict kvs :: after ->
     Forall (fun f => dict_get f "name" <> Some (PStr "Epic Name")) before ->
     dict_get kvs "name" = Some (PStr "Epic Name") ->
     dict_get kvs "id" = Some v ->
     (get_epic_name_field_id cfg net w).1 = Return v) /\
  (forall dicts,
     fields = map PDict dicts ->
     Forall (fun f => dict_get f "name" <> Some (PStr "Epic Name")) dicts ->
     (get_epic_name_field_id cfg net w).1 = Return (PStr "customfield_10011")).
Proof.
  intros Hnet Hok Hbody.
  assert (E : get_epic_name_field_id cfg net w
              = match find_epic_name fields
                        (with_trace (trace w ++ [field_request cfg]) w) with
                | (Raise (RequestException msg), w') =>
                    (logger_error ("Error fetching Epic Name field ID: " +:+ msg)
                     ≫= fun _ => mret PNone) w'
                | r => r
                end).
  { unfold get_epic_name_field_id. cbv zeta. unfold try_except, requests_get.
    change {| req_method := GET;
              req_url := PStr (fstr (JIRA_URL cfg) +:+ "/rest/api/3/field");
              req_auth := auth cfg;
              req_headers := [("Accept", "application/json")];
              req_files := [] |}
      with (field_request cfg).
    rewrite (send_checked_answer net _ _ w resp Hnet Hok).
    unfold response_json. rewrite Hbody. reflexivity. }
  rewrite E. split.
  - intros before kvs after v -> Hbefore Hname Hid.
    rewrite (find_epic_name_first before kvs after v _ Hbefore Hname Hid).
    reflexivity.
  - intros dicts -> Hall. rewrite (find_epic_name_none dicts _ Hall). reflexivity.
Qed.

Lemma get_epic_name_field_id_first_match_witness :
  (get_epic_name_field_id Sample.cfg_unset Sample.net_fields Sample.w_fresh).1
  = Return (PStr "customfield_10104") /\
  (get_epic_name_field_id Sample.cfg_unset Sample.net_plain_fields
     Sample.w_fresh).1
  = Return (PStr "customfield_10011").
Proof.
  split.
  2:{ apply (proj2 (get_epic_name_field_id_first_match Sample.cfg_unset
                      Sample.net_plain_fields Sample.w_fresh _ _
                      eq_refl eq_refl eq_refl)
               [[("id", PStr "summary"); ("name", PStr "Summary")];
                [("id", PStr "customfield_10020")]]);
        [reflexivity|repeat constructor; discriminate]. }
  apply (proj1 (get_epic_name_field_id_first_match Sample.cfg_unset
                  Sample.net_fields Sample.w_fresh _ _ eq_refl eq_refl eq_refl)
           [[("id", PStr "summary"); ("name", PStr "Summary")]]
           [("id", PStr "customfield_10104"); ("name", PStr "Epic Name")]
           [PDict [("id", PStr "customfield_10999"); ("name", PStr "Epic Name")]]).
  - reflexivity.
  - repeat constructor. discriminate.
  - reflexivity.
  - reflexivity.
Defined.

(** ** An issue without attachments *)

Lemma is_dir_snoc (t : gmap (list string) node) dir name :
  is_dir t (dir ++ [name])
  = match t !! (dir ++ [name]) with Some Dir => true | _ => false end.
Proof. destruct dir; reflexivity. Qed.

Lemma present_snoc (t : gmap (list string) node) dir name :
  present t (dir ++ [name]) = bool_decide (is_Some (t !! (dir ++ [name]))).
Proof. destruct dir; reflexivity. Qed.

Lemma py_get_dict kvs k d :
  py_get (PDict kvs) k d = mret (from_option id d (dict_get kvs k)).
Proof. reflexivity. Qed.

Lemma resolve_tmp w :
  is_dir (fs w) (cwd w) = true -> resolve w "tmp" = inr (cwd w ++ ["tmp"]).
Proof. intros H. unfold resolve. simpl. rewrite H. reflexivity. Qed.

(** [os.makedirs("tmp", exist_ok=True)] where [tmp] is a directory or
    nothing at all. *)
Lemma os_makedirs_tmp w :
  is_dir (fs w) (cwd w) = true ->
  (forall data, fs w !! (cwd w ++ ["tmp"]) <> Some (File data)) ->
  exists w',
    os_makedirs_exist_ok "tmp" w = (Return tt, w') /\
    fs w' = (if is_dir (fs w) (cwd w ++ ["tmp"]) then fs w
             else <[cwd w ++ ["tmp"] := Dir]> (fs w)) /\
    cwd w' = cwd w /\ log w' = log w /\ trace w' = trace w.
Proof.
  intros Hcwd Hnofile.
  unfold os_makedirs_exist_ok, try_except_all, os_mkdir.
  rewrite (resolve_tmp w Hcwd), present_snoc, is_dir_snoc.
  destruct (fs w !! (cwd w ++ ["tmp"])) as [[data|]|] eqn:E.
  - destruct (Hnofile data). reflexivity.
  - rewrite bool_decide_eq_true_2 by eauto.
    rewrite bind_eq. unfold os_path_isdir.
    rewrite (resolve_tmp w Hcwd), is_dir_snoc, E.
    exists w. repeat split.
  - rewrite bool_decide_eq_false_2 by (intros [? ?]; discriminate).
    eexists. split; [reflexivity|]. repeat split.
Qed.

(** C10.  When the issue's payload has no attachments (no ["fields"], no
    ["attachment"] in them, or an empty list), [download_attachments] makes
    the one request, writes no file, returns the empty [downloaded_files]
    with the message naming the issue key, and [tmp] is a directory
    afterwards, created if it was not there.  This needs [tmp] not to be a
    regular file and the working directory to exist. *)
Theorem download_attachments_without_attachments
    cfg net issue_key k w resp kvs fields :
  (default_issue_key cfg issue_key w).1 = Return (Some k) ->
  net (trace w) (issue_request cfg k) = Answer resp ->
  failing (Answer resp) = false ->
  body resp = Json (PDict kvs) ->
  from_option id (PDict []) (dict_get kvs "fields") = PDict fields ->
  from_option id (PList []) (dict_get fields "attachment") = PList [] ->
  is_dir (fs w) (cwd w) = true ->
  (forall data, fs w !! (cwd w ++ ["tmp"]) <> Some (File data)) ->
  let r := download_attachments cfg net issue_key w in
  r.1 = Return (PDict [("downloaded_files", PList []);
                       ("message",
                        PStr ("No attachments found for issue " +:+ k))]) /\
  fs r.2 = (if is_dir (fs w) (cwd w ++ ["tmp"]) then fs w
            else <[cwd w ++ ["tmp"] := Dir]> (fs w)) /\
  is_dir (fs r.2) (cwd w ++ ["tmp"]) = true /\
  (forall p data, fs r.2 !! p = Some (File data) -> fs w !! p = Some (File data)) /\
  trace r.2 = trace w ++ [issue_request cfg k].
Proof.
  intros Hkey Hnet Hok Hbody Hfields Hatt Hcwd Hnofile r.
  assert (Hr : exists w',
             r = (Return (PDict [("downloaded_files", PList []);
                                 ("message",
                                  PStr ("No attachments found for issue " +:+ k))]),
                  w') /\
             fs w' = (if is_dir (fs w) (cwd w ++ ["tmp"]) then fs w
                      else <[cwd w ++ ["tmp"] := Dir]> (fs w)) /\
             trace w' = trace w ++ [issue_request cfg k]).
  { subst r. unfold download_attachments.
    destruct (default_issue_key_spec cfg issue_key w) as [l0 E0].
    rewrite E0 in Hkey. simpl in Hkey. injection Hkey as Hkey.
    rewrite Hkey in E0. rewrite (bind_return _ _ _ _ _ E0).
    set (w1 := with_log (log w ++ l0) w).
    destruct (check_project_spec cfg k w1) as [l1 [E1 _]].
    rewrite (bind_return _ _ _ _ _ E1). cbv zeta.
    set (w2 := with_log (log w1 ++ l1) w1).
    unfold try_except, requests_get.
    change {| req_method := GET;
              req_url := PStr (fstr (JIRA_URL cfg) +:+ "/rest/api/3/issue/" +:+ k);
              req_auth := auth cfg;
              req_headers := [("Accept", "application/json")];
              req_files := [] |}
      with (issue_request cfg k).
    rewrite (send_checked_answer net _ _ w2 resp Hnet Hok).
    unfold response_json. rewrite Hbody. cbv beta iota. rewrite ret_bind.
    rewrite py_get_dict, ret_bind, Hfields.
    rewrite py_get_dict, ret_bind, Hatt.
    set (w3 := with_trace _ w2).
    destruct (os_makedirs_tmp w3 Hcwd Hnofile) as (w4 & E4 & Hfs & _ & _ & Htr).
    rewrite (bind_return _ _ _ _ _ E4). simpl.
    eexists. split; [reflexivity|]. simpl. split; [exact Hfs|exact Htr]. }
  destruct Hr as (w' & -> & Hfs & Htr). simpl.
  split; [reflexivity|]. split; [exact Hfs|].
  split; [|split; [|exact Htr]].
  - rewrite Hfs. destruct (is_dir (fs w) (cwd w ++ ["tmp"])) eqn:E; [exact E|].
    rewrite is_dir_snoc, lookup_insert_eq. reflexivity.
  - intros p data. rewrite Hfs.
    destruct (is_dir (fs w) (cwd w ++ ["tmp"])); [tauto|].
    destruct (decide (cwd w ++ ["tmp"] = p)) as [<-|Hne].
    + rewrite lookup_insert_eq. discriminate.
    + by rewrite lookup_insert_ne.
Qed.

Lemma download_attachments_without_attachments_witness :
  let r := download_attachments Sample.cfg_unset Sample.net_bare (Some "XY-9")
             Sample.w_fresh in
  r.1 = Return (PDict [("downloaded_files", PList []);
                       ("message", PStr "No attachments found for issue XY-9")]) /\
  fs r.2 !! ["srv"; "tmp"] = Some Dir.
Proof.
  destruct (download_attachments_without_attachments Sample.cfg_unset
              Sample.net_bare (Some "XY-9") "XY-9" Sample.w_fresh _
              [("key", PStr "XY-9"); ("fields", PDict [("summary", PStr "s")])]
              [("summary", PStr "s")]
              eq_refl eq_refl eq_refl eq_refl eq_refl eq_refl eq_refl)
    as (Hr & Hfs & _).
  { intros data. vm_compute. discriminate. }
  split; [exact Hr|].
  rewrite Hfs. vm_compute. reflexivity.
Defined.


(** ** Listing the scratch directory *)

Lemma with_log_nil w : with_log (log w ++ []) w = w.
Proof. destruct w. unfold with_log. simpl. by rewrite app_nil_r. Qed.

Lemma keep_files_eq tmp_dir names w :
  keep_files tmp_dir names w
  = (Return (List.filter (fun f => is_file_at w (os_path_join tmp_dir f)) names), w).
Proof.
  induction names as [|f rest IH]; simpl; [reflexivity|].
  rewrite bind_eq. unfold os_path_isfile, is_file_at.
  destruct (resolve w (os_path_join tmp_dir f)) as [no|k]; rewrite bind_eq, IH;
    [reflexivity|].
  destruct (fs w !! k) as [[]|]; reflexivity.
Qed.

(** X1.  [list_tmp_files] never raises, makes no request and changes nothing but
    the log, whatever the file system looks like. *)
Theorem list_tmp_files_never_raises w :
  exists v l, list_tmp_files w = (Return v, with_log (log w ++ l) w).
Proof.
  unfold list_tmp_files. cbv zeta. rewrite bind_eq. unfold os_path_exists.
  destruct (resolve w "tmp") as [no|k] eqn:Er.
  { simpl. eexists _, []. by rewrite with_log_nil. }
  destruct (present (fs w) k); simpl.
  2:{ eexists _, []. by rewrite with_log_nil. }
  unfold try_except_all. rewrite bind_eq. unfold os_listdir. rewrite Er.
  destruct (is_dir (fs w) k).
  { rewrite bind_eq, keep_files_eq. eexists _, []. by rewrite with_log_nil. }
  destruct (present (fs w) k); eexists _, _; reflexivity.
Qed.

(** X2.  Without a [tmp] in the working directory the tool says so, and logs
    nothing. *)
Theorem list_tmp_files_without_tmp w :
  is_dir (fs w) (cwd w) = true ->
  fs w !! (cwd w ++ ["tmp"]) = None ->
  list_tmp_files w
  = (Return (PDict [("files", PList []);
                    ("message", PStr "tmp directory does not exist")]), w).
Proof.
  intros Hcwd Hnone. unfold list_tmp_files. cbv zeta.
  rewrite bind_eq. unfold os_path_exists.
  rewrite (resolve_tmp w Hcwd), present_snoc, Hnone.
  rewrite bool_decide_eq_false_2 by (intros [? ?]; discriminate).
  reflexivity.
Qed.

Lemma list_tmp_files_without_tmp_witness :
  (list_tmp_files Sample.w_fresh).1
  = Return (PDict [("files", PList []);
                   ("message", PStr "tmp directory does not exist")]).
Proof.
  rewrite (list_tmp_files_without_tmp Sample.w_fresh); [reflexivity| |];
    vm_compute; reflexivity.
Defined.

(** X3.  When [tmp] is a regular file, [os.listdir] raises inside the guarded
    block: the tool logs the error and returns [None]. *)
Theorem list_tmp_files_tmp_is_a_file w data :
  is_dir (fs w) (cwd w) = true ->
  fs w !! (cwd w ++ ["tmp"]) = Some (File data) ->
  list_tmp_files w
  = (Return PNone,
     with_log (log w ++ [(ERROR, "Error listing tmp files: [Errno 20] Not a directory: 'tmp'")]) w).
Proof.
  intros Hcwd Hfile. unfold list_tmp_files. cbv zeta.
  rewrite bind_eq. unfold os_path_exists.
  rewrite (resolve_tmp w Hcwd), present_snoc, Hfile.
  rewrite bool_decide_eq_true_2 by eauto. change (negb true) with false. cbv iota.
  unfold try_except_all. cbv beta. rewrite bind_eq. unfold os_listdir.
  rewrite (resolve_tmp w Hcwd), is_dir_snoc, present_snoc, Hfile.
  rewrite bool_decide_eq_true_2 by eauto. reflexivity.
Qed.

Lemma list_tmp_files_tmp_is_a_file_witness :
  (list_tmp_files Sample.w_tmp_file).1 = Return PNone.
Proof.
  rewrite (list_tmp_files_tmp_is_a_file _ Sample.hi); [reflexivity| |];
    vm_compute; reflexivity.
Defined.

Lemma child_of_spec dir p n : child_of dir p = Some n <-> p = dir ++ [n].
Proof.
  revert p. induction dir as [|d dir IH]; intros p; simpl.
  - destruct p as [|c [|c' p]]; split; intros H; by simplify_eq/=.
  - destruct p as [|c p]; [split; intros H; by simplify_eq/=|].
    destruct (String.eqb_spec d c) as [->|Hne].
    + rewrite IH. split; intros H; by simplify_eq/=.
    + split; intros H; by simplify_eq/=.
Qed.

Lemma split_on_no_slash n : has_slash n = false -> split_on "/" n = [n].
Proof.
  induction n as [|a n IH]; simpl; [reflexivity|].
  intros H. apply orb_false_iff in H as [Ha Hn].
  rewrite Ha, (IH Hn). reflexivity.
Qed.

Lemma prefix_no_slash n : has_slash n = false -> String.prefix "/" n = false.
Proof.
  destruct n as [|a n]; [reflexivity|].
  intros H. simpl in H. apply orb_false_iff in H as [Ha _].
  change (String.prefix "/" (String a n))
    with (if ascii_dec "/" a then String.prefix "" n else false).
  destruct (ascii_dec "/" a) as [<-|]; [|reflexivity].
  discriminate.
Qed.

(** An entry of [tmp] resolves to itself. *)
Lemma resolve_tmp_entry w n :
  is_dir (fs w) (cwd w) = true ->
  fs w !! (cwd w ++ ["tmp"]) = Some Dir ->
  plain n = true ->
  resolve w (os_path_join "tmp" n) = inr ((cwd w ++ ["tmp"]) ++ [n]).
Proof.
  intros Hcwd Htmp Hplain. unfold plain in Hplain.
  apply negb_true_iff in Hplain.
  repeat (apply orb_false_iff in Hplain as [Hplain ?]).
  unfold os_path_join. rewrite (prefix_no_slash n) by assumption. simpl.
  unfold resolve. simpl. change ("" +:+ n) with n.
  rewrite (split_on_no_slash n) by assumption.
  rewrite Hcwd. simpl. rewrite is_dir_snoc, Htmp.
  rewrite Hplain. simpl.
  repeat match goal with
         | E : (n =? _)%string = false |- _ => rewrite E; clear E
         end.
  reflexivity.
Qed.

Lemma NoDup_omap_fst {A B C : Type} (f : A -> option C) (l : list (A * B)) :
  (forall x y n, f x = Some n -> f y = Some n -> x = y) ->
  NoDup (l.*1) -> NoDup (omap (fun kv => f kv.1) l).
Proof.
  intros Hinj. induction l as [|[a b] l IH]; simpl; [constructor|].
  intros Hnd. apply NoDup_cons in Hnd as [Hnotin Hnd].
  destruct (f a) as [n|] eqn:E; [|by apply IH].
  apply NoDup_cons. split; [|by apply IH].
  intros Hin. apply list_elem_of_omap in Hin as [[a' b'] [Hin' E']].
  simpl in E'. rewrite (Hinj a a' n E E') in Hnotin.
  apply Hnotin. apply list_elem_of_fmap. exists (a', b'). split; [reflexivity|exact Hin'].
Qed.

(** X4.  When [tmp] is a directory whose entries have plain names, the tool
    returns exactly the names of the regular files directly in [tmp], each
    once, with their count; subdirectories are left out. *)
Theorem list_tmp_files_lists_regular_files w :
  is_dir (fs w) (cwd w) = true ->
  fs w !! (cwd w ++ ["tmp"]) = Some Dir ->
  (forall n node, fs w !! ((cwd w ++ ["tmp"]) ++ [n]) = Some node -> plain n = true) ->
  exists files,
    list_tmp_files w
    = (Return (PDict [("files", PList (map PStr files));
                      ("count", PInt (Z.of_nat (length files)));
                      ("message", PStr ("Found " +:+ pretty (length files)
                                        +:+ " files in tmp directory"))]), w) /\
    NoDup files /\
    forall n, n ∈ files
              <-> exists data, fs w !! ((cwd w ++ ["tmp"]) ++ [n]) = Some (File data).
Proof.
  intros Hcwd Htmp Hplain.
  set (tmp := cwd w ++ ["tmp"]) in *.
  set (names := omap (fun kv : list string * node => child_of tmp kv.1)
                  (map_to_list (fs w))).
  assert (Hnames : forall n, n ∈ names <-> exists node, fs w !! (tmp ++ [n]) = Some node).
  { intros n. unfold names. rewrite list_elem_of_omap. split.
    - intros [[p node] [Hin Hc]]. simpl in Hc. apply child_of_spec in Hc as ->.
      apply elem_of_map_to_list in Hin. eauto.
    - intros [node Hn]. exists (tmp ++ [n], node). split.
      + by apply elem_of_map_to_list.
      + simpl. by apply child_of_spec. }
  assert (Hnd : NoDup names).
  { unfold names. apply NoDup_omap_fst; [|apply NoDup_fst_map_to_list].
    intros x y n Hx Hy. apply child_of_spec in Hx, Hy. congruence. }
  exists (List.filter (fun f => is_file_at w (os_path_join "tmp" f)) names).
  split; [|split].
  - unfold list_tmp_files. cbv zeta. rewrite bind_eq. unfold os_path_exists.
    rewrite (resolve_tmp w Hcwd), present_snoc. fold tmp. rewrite Htmp.
    rewrite bool_decide_eq_true_2 by eauto. change (negb true) with false. cbv iota.
    unfold try_except_all. cbv beta. rewrite bind_eq. unfold os_listdir.
    rewrite (resolve_tmp w Hcwd), is_dir_snoc. fold tmp. rewrite Htmp.
    fold names. rewrite bind_eq, keep_files_eq. reflexivity.
  - apply NoDup_ListNoDup, List.NoDup_filter, NoDup_ListNoDup, Hnd.
  - intros n. rewrite list_elem_of_In, List.filter_In, <- list_elem_of_In, Hnames.
    split.
    + intros [[node Hn] Hf]. unfold is_file_at in Hf.
      rewrite (resolve_tmp_entry w n Hcwd Htmp (Hplain n node Hn)) in Hf.
      fold tmp in Hf. rewrite Hn in Hf. destruct node; [eauto|discriminate].
    + intros [data Hn]. split; [eauto|]. unfold is_file_at.
      rewrite (resolve_tmp_entry w n Hcwd Htmp (Hplain n _ Hn)).
      fold tmp. rewrite Hn. reflexivity.
Qed.

Lemma list_tmp_files_lists_regular_files_witness :
  exists files,
    (list_tmp_files Sample.w_tmp).1
    = Return (PDict [("files", PList (map PStr files));
                     ("count", PInt (Z.of_nat (length files)));
                     ("message", PStr ("Found " +:+ pretty (length files)
                                       +:+ " files in tmp directory"))]) /\
    ("notes.txt" ∈ files).
Proof.
  destruct (list_tmp_files_lists_regular_files Sample.w_tmp)
    as (files & E & _ & Hin).
  - vm_compute. reflexivity.
  - vm_compute. reflexivity.
  - intros n node. simpl.
    destruct (decide (n = "notes.txt")) as [->|Hne]; [reflexivity|].
    unfold Sample.w_tmp. simpl.
    rewrite !lookup_insert_ne by congruence.
    rewrite lookup_singleton_ne by congruence. discriminate.
  - exists files. split; [by rewrite E|].
    apply Hin. exists Sample.hi. vm_compute. reflexivity.
Defined.

(** ** Uploading *)

(** X5.  With an issue key, a readable file and a good answer,
    [upload_attachment] makes the one POST that carries the file's bytes,
    leaves the file system alone, logs the upload last and returns the
    dict naming the file, the issue and the project. *)
Theorem upload_attachment_success cfg net filename issue_key k data w resp :
  (default_issue_key cfg issue_key w).1 = Return (Some k) ->
  (open_rb (os_path_join "tmp" filename) w).1 = Return data ->
  net (trace w) (attach_request cfg k filename data) = Answer resp ->
  failing (Answer resp) = false ->
  let r := upload_attachment cfg net filename issue_key w in
  r.1 = Return (PDict [("uploaded_file", PStr filename);
                       ("message", PStr ("Successfully uploaded " +:+ filename
                                         +:+ " to issue " +:+ k));
                       ("issue_key", PStr k);
                       ("project_key", of_opt (PROJECT_KEY cfg))]) /\
  trace r.2 = trace w ++ [attach_request cfg k filename data] /\
  fs r.2 = fs w /\
  exists l, log r.2 = log w ++ l ++ [(DEBUG, "Uploaded attachment: " +:+ filename
                                             +:+ " to " +:+ k)].
Proof.
  intros Hkey Hopen Hnet Hok r. subst r. unfold upload_attachment.
  destruct (default_issue_key_spec cfg issue_key w) as [l0 E0].
  rewrite E0 in Hkey. simpl in Hkey. injection Hkey as Hkey.
  rewrite Hkey in E0. rewrite (bind_return _ _ _ _ _ E0).
  set (w1 := with_log (log w ++ l0) w).
  destruct (check_project_spec cfg k w1) as [l1 [E1 _]].
  rewrite (bind_return _ _ _ _ _ E1). cbv zeta.
  set (w2 := with_log (log w1 ++ l1) w1).
  set (path := os_path_join "tmp" filename) in *.
  assert (Eo : open_rb path w2 = (Return data, w2)).
  { subst w2 w1. rewrite !open_rb_with_log, Hopen. reflexivity. }
  assert (Ee : os_path_exists path w2 = (Return true, w2)).
  { apply open_rb_exists in Hopen. subst w2 w1.
    rewrite !os_path_exists_with_log, Hopen. reflexivity. }
  rewrite (bind_return _ _ _ _ _ Ee). change (negb true) with false. unfold when.
  rewrite ret_bind. unfold try_except.
  rewrite (bind_return _ _ _ _ _ Eo). unfold requests_post.
  change {| req_method := POST;
            req_url := PStr (fstr (JIRA_URL cfg) +:+ "/rest/api/3/issue/" +:+ k
                             +:+ "/attachments");
            req_auth := auth cfg;
            req_headers := [("X-Atlassian-Token", "no-check")];
            req_files := [("file", (filename, data))] |}
    with (attach_request cfg k filename data).
  rewrite (send_checked_answer net _ _ w2 resp Hnet Hok). simpl.
  repeat split. exists (l0 ++ l1). by rewrite !app_assoc.
Qed.

Lemma upload_attachment_success_witness :
  (upload_attachment Sample.cfg_unset Sample.net_bare "notes.txt" (Some "DA-4")
     Sample.w_tmp).1
  = Return (PDict [("uploaded_file", PStr "notes.txt");
                   ("message", PStr "Successfully uploaded notes.txt to issue DA-4");
                   ("issue_key", PStr "DA-4");
                   ("project_key", PStr "DA")]).
Proof.
  apply (upload_attachment_success Sample.cfg_unset Sample.net_bare "notes.txt"
           (Some "DA-4") "DA-4" Sample.hi Sample.w_tmp _
           eq_refl eq_refl eq_refl eq_refl).
Defined.

(** X6.  A [filename] that starts with a slash is taken as it is: the tool
    posts the file at that absolute path, wherever it lies. *)
Theorem upload_attachment_absolute_filename cfg net filename issue_key k data w :
  String.prefix "/" filename = true ->
  (default_issue_key cfg issue_key w).1 = Return (Some k) ->
  (open_rb filename w).1 = Return data ->
  trace (upload_attachment cfg net filename issue_key w).2
  = trace w ++ [attach_request cfg k filename data].
Proof.
  intros Habs Hkey Hopen.
  assert (Hjoin : os_path_join "tmp" filename = filename).
  { unfold os_path_join. by rewrite Habs. }
  apply (upload_attachment_request cfg net filename issue_key k data w Hkey).
  by rewrite Hjoin.
Qed.

Lemma upload_attachment_absolute_filename_witness :
  inside_tmp Sample.w_etc ["etc"; "passwd"] = false /\
  trace (upload_attachment Sample.cfg_unset Sample.net_bare "/etc/passwd"
           (Some "DA-4") Sample.w_etc).2
  = trace Sample.w_etc
    ++ [attach_request Sample.cfg_unset "DA-4" "/etc/passwd" Sample.hi].
Proof.
  split; [vm_compute; reflexivity|].
  apply (upload_attachment_absolute_filename Sample.cfg_unset Sample.net_bare
           "/etc/passwd" (Some "DA-4") "DA-4" Sample.hi Sample.w_etc
           eq_refl eq_refl).
  vm_compute. reflexivity.
Defined.

(** ** What a successful download leaves behind *)

Lemma bind_inv {A B : Type} (m : py A) (f : A -> py B) w b w' :
  (m ≫= f) w = (Return b, w') ->
  exists a w1, m w = (Return a, w1) /\ f a w1 = (Return b, w').
Proof.
  rewrite bind_eq. destruct (m w) as [[a|e] w1]; [eauto|discriminate].
Qed.

Lemma py_getitem_inv v k x w w' :
  py_getitem v k w = (Return x, w') ->
  w' = w /\ exists kvs, v = PDict kvs /\ dict_get kvs k = Some x.
Proof.
  destruct v; try discriminate. simpl.
  destruct (dict_get kvs k) as [y|] eqn:E; [|discriminate].
  intros [= -> ->]. eauto.
Qed.

Lemma py_get_inv v k d x w w' :
  py_get v k d w = (Return x, w') ->
  w' = w /\ exists kvs, v = PDict kvs /\ x = from_option id d (dict_get kvs k).
Proof. destruct v; try discriminate. intros [= <- <-]. eauto. Qed.

Lemma py_iter_inv v items w w' : py_iter v w = (Return items, w') -> w' = w.
Proof. destruct v; try discriminate; by intros [= _ <-]. Qed.

Lemma send_inv net q resp w w' :
  send net q w = (Return resp, w') ->
  w' = with_trace (trace w ++ [q]) w /\ net (trace w) q = Answer resp.
Proof.
  unfold send. destruct (net (trace w) q); [discriminate|].
  intros [= -> <-]. eauto.
Qed.

Lemma raise_for_status_inv r u w w' :
  raise_for_status r w = (Return u, w') -> w' = w /\ failing (Answer r) = false.
Proof.
  destruct (raise_for_status_spec r w) as [[_ [msg ->]]|[Hok ->]];
    [discriminate|]. by intros [= _ <-].
Qed.

Lemma response_json_inv r v w w' :
  response_json r w = (Return v, w') -> w' = w /\ body r = Json v.
Proof.
  unfold response_json. destruct (body r); [discriminate|].
  by intros [= <- <-].
Qed.

Lemma is_dir_insert_file (t : gmap (list string) node) k data p :
  is_dir t k = false -> is_dir (<[k := File data]> t) p = is_dir t p.
Proof.
  intros Hk. unfold is_dir in *. destruct p as [|c p]; [reflexivity|].
  destruct (decide (k = c :: p)) as [->|Hne].
  - rewrite lookup_insert_eq. by destruct (t !! (c :: p)) as [[]|].
  - by rewrite lookup_insert_ne.
Qed.

Lemma same_dirs_refl t : same_dirs t t.
Proof. split; eauto. Qed.

Lemma same_dirs_trans a b c : same_dirs a b -> same_dirs b c -> same_dirs a c.
Proof.
  intros [D1 F1] [D2 F2]. split.
  - intros p. by rewrite D2.
  - intros p data Hp. destruct (F1 p data Hp) as [data' Hp']. eauto.
Qed.

Lemma same_dirs_write (t : gmap (list string) node) k data :
  is_dir t k = false -> same_dirs t (<[k := File data]> t).
Proof.
  intros Hk. split; [intros p; by apply is_dir_insert_file|].
  intros p d Hp. destruct (decide (k = p)) as [->|Hne].
  - rewrite lookup_insert_eq. eauto.
  - rewrite lookup_insert_ne by assumption. eauto.
Qed.

Lemma settled_refl w : settled w w.
Proof. split; [reflexivity|apply same_dirs_refl]. Qed.

Lemma settled_trans a b c : settled a b -> settled b c -> settled a c.
Proof.
  intros [C1 S1] [C2 S2]. split; [congruence|by eapply same_dirs_trans].
Qed.

Lemma walk_same_dirs t t' cur comps k :
  same_dirs t t' -> walk t cur comps = inr k -> walk t' cur comps = inr k.
Proof.
  intros [Hd _]. revert cur.
  induction comps as [|c rest IH]; intros cur; simpl; [done|].
  rewrite Hd. destruct (is_dir t cur).
  - destruct (_ || _); [apply IH|]. destruct (String.eqb c ".."); apply IH.
  - destruct (present t cur); discriminate.
Qed.

Lemma readable_settled w w' path :
  settled w w' -> readable w path -> readable w' path.
Proof.
  intros [Hc Hs] [data Hr]. unfold readable, open_rb, resolve in *.
  destruct (String.eqb path ""); [discriminate|].
  rewrite Hc.
  destruct (walk (fs w) _ _) as [no|k] eqn:Ew; [discriminate|].
  rewrite (walk_same_dirs _ _ _ _ _ Hs Ew).
  destruct (fs w !! k) as [[d|]|] eqn:Ek; try discriminate.
  destruct (proj2 Hs k d Ek) as [d' ->]. eauto.
Qed.

(** What was written is what is read back. *)
Lemma open_wb_write_read path data u w w' :
  open_wb_write path data w = (Return u, w') ->
  settled w w' /\ log w' = log w /\ trace w' = trace w /\
  open_rb path w' = (Return data, w').
Proof.
  unfold open_wb_write, open_rb, resolve.
  destruct (String.eqb path "") eqn:Ep; [discriminate|].
  destruct (walk (fs w) _ _) as [no|k] eqn:Ew; [discriminate|].
  destruct (is_dir (fs w) k) eqn:Ed; [discriminate|].
  intros [= _ <-]. unfold with_fs. cbn [fs cwd log trace].
  assert (Hs : same_dirs (fs w) (<[k := File data]> (fs w)))
    by by apply same_dirs_write.
  split; [by split|]. split; [reflexivity|]. split; [reflexivity|].
  rewrite ?Ep, (walk_same_dirs _ _ _ _ _ Hs Ew), lookup_insert_eq. reflexivity.
Qed.

Lemma download_each_saved cfg net items saved w saved' w' :
  download_each cfg net items saved w = (Return saved', w') ->
  exists new,
    saved' = saved ++ new /\ length new = length items /\
    settled w w' /\
    (forall p, p ∈ new -> readable w' p) /\
    length (trace w') = (length (trace w) + length items)%nat.
Proof.
  revert saved w.
  induction items as [|item rest IH]; intros saved w; simpl.
  { intros [= <- <-]. exists []. rewrite app_nil_r. repeat split;
      [apply settled_refl|intros p Hp; inversion Hp|lia]. }
  intros H.
  apply bind_inv in H as (file_url & w1 & H1 & H).
  apply py_getitem_inv in H1 as [-> _].
  apply bind_inv in H as (file_name & w1 & H1 & H).
  apply py_getitem_inv in H1 as [-> _].
  apply bind_inv in H as (file_response & w1 & H1 & H).
  apply send_inv in H1 as [-> _].
  apply bind_inv in H as (u & w1 & H1 & H).
  apply raise_for_status_inv in H1 as [-> _].
  apply bind_inv in H as (file_path & w1 & H1 & H).
  destruct file_name; try discriminate. injection H1 as <- <-.
  apply bind_inv in H as (u' & w2 & H1 & H).
  apply open_wb_write_read in H1 as (Hs & Hl & Ht & Hr).
  apply bind_inv in H as (u'' & w3 & H1 & H).
  injection H1 as _ <-.
  destruct (IH _ _ H) as (new & E & Hlen & Hs' & Hread & Htr). clear IH.
  subst saved'.
  exists (os_path_join "tmp" s :: new).
  split; [by rewrite <- app_assoc|]. split; [simpl; lia|].
  assert (Hs0 : settled w w2).
  { destruct Hs as [Hc Hd]. split; [exact Hc|exact Hd]. }
  assert (Hs1 : settled w2 (with_log (log w2 ++ [(DEBUG, "Downloaded attachment: "
                                                   +:+ os_path_join "tmp" s)]) w2))
    by (split; [reflexivity|apply same_dirs_refl]).
  split; [eapply settled_trans; [exact Hs0|eapply settled_trans; [exact Hs1|exact Hs']]|].
  split.
  - intros p Hp. apply elem_of_cons in Hp as [->|Hp]; [|by apply Hread].
    apply (readable_settled _ _ _ Hs').
    exists (content file_response). rewrite open_rb_with_log, Hr. reflexivity.
  - rewrite Htr. simpl. rewrite Ht. simpl. rewrite length_app. simpl. lia.
Qed.

Lemma download_each_last cfg net items saved w saved' w' :
  items <> [] ->
  download_each cfg net items saved w = (Return saved', w') ->
  exists tr q resp before p,
    trace w' = tr ++ [q] /\ net tr q = Answer resp /\
    saved' = before ++ [p] /\ (open_rb p w').1 = Return (content resp).
Proof.
  revert saved w.
  induction items as [|item rest IH]; intros saved w Hne; [done|]. simpl.
  intros H.
  apply bind_inv in H as (file_url & w1 & H1 & H).
  apply py_getitem_inv in H1 as [-> _].
  apply bind_inv in H as (file_name & w1 & H1 & H).
  apply py_getitem_inv in H1 as [-> _].
  apply bind_inv in H as (file_response & w1 & H1 & H).
  apply send_inv in H1 as [-> Hnet].
  apply bind_inv in H as (u & w1 & H1 & H).
  apply raise_for_status_inv in H1 as [-> _].
  apply bind_inv in H as (file_path & w1 & H1 & H).
  destruct file_name; try discriminate. injection H1 as <- <-.
  apply bind_inv in H as (u' & w2 & H1 & H).
  apply open_wb_write_read in H1 as (Hs & Hl & Ht & Hr).
  apply bind_inv in H as (u'' & w3 & H1 & H).
  injection H1 as _ <-.
  destruct rest as [|item' rest'].
  - simpl in H. injection H as <- <-.
    eexists (trace w), _, file_response, saved, (os_path_join "tmp" s).
    split; [simpl; rewrite Ht; reflexivity|].
    split; [exact Hnet|]. split; [reflexivity|].
    rewrite open_rb_with_log, Hr. reflexivity.
  - apply (IH _ _ ltac:(discriminate) H).
Qed.

Lemma os_makedirs_exist_ok_trace name u w w' :
  os_makedirs_exist_ok name w = (Return u, w') -> trace w' = trace w.
Proof.
  intros H.
  pose proof (respects_os_makedirs_exist_ok (fun a b => trace b = trace a)
                (fun a => eq_refl) (fun a b c H1 H2 => eq_trans H2 H1)
                (fun a k _ => eq_refl) name w) as Hr.
  by rewrite H in Hr.
Qed.

(** What [download_attachments] has done when it returns a dict. *)
Lemma download_attachments_inv cfg net issue_key w kvs w' :
  download_attachments cfg net issue_key w = (Return (PDict kvs), w') ->
  exists k,
    (default_issue_key cfg issue_key w).1 = Return (Some k) /\
    ((kvs = [("downloaded_files", PList []);
             ("message", PStr ("No attachments found for issue " +:+ k))] /\
      length (trace w') = S (length (trace w))) \/
     (exists items saved w3,
        download_each cfg net items [] w3 = (Return saved, w') /\
        length (trace w3) = S (length (trace w)) /\
        kvs = [("downloaded_files", PList (map PStr saved));
               ("message", PStr ("Successfully downloaded "
                                 +:+ pretty (length saved)
                                 +:+ " attachments from issue " +:+ k));
               ("issue_key", PStr k);
               ("project_key", of_opt (PROJECT_KEY cfg))])).
Proof.
  unfold download_attachments. intros H.
  destruct (default_issue_key_spec cfg issue_key w) as [l0 E0].
  rewrite (bind_return _ _ _ _ _ E0) in H.
  rewrite E0. simpl.
  destruct (if truthy_opt issue_key then issue_key else ISSUE_KEY cfg) as [k|];
    [|discriminate].
  exists k. split; [reflexivity|].
  set (w1 := with_log (log w ++ l0) w) in *.
  destruct (check_project_spec cfg k w1) as [l1 [E1 _]].
  rewrite (bind_return _ _ _ _ _ E1) in H. cbv zeta in H.
  set (w2 := with_log (log w1 ++ l1) w1) in *.
  unfold try_except in H.
  match type of H with
  | context [match ?b w2 with _ => _ end] => destruct (b w2) as [[v|e] w3] eqn:Eb
  end.
  2:{ destruct e; discriminate. }
  injection H as -> ->.
  apply bind_inv in Eb as (response & w4 & H1 & H).
  apply send_inv in H1 as [-> _].
  apply bind_inv in H as (u & w4 & H1 & H).
  apply raise_for_status_inv in H1 as [-> _].
  apply bind_inv in H as (issue & w4 & H1 & H).
  apply response_json_inv in H1 as [-> _].
  apply bind_inv in H as (fields & w4 & H1 & H).
  apply py_get_inv in H1 as [-> _].
  apply bind_inv in H as (attachments & w4 & H1 & H).
  apply py_get_inv in H1 as [-> _].
  apply bind_inv in H as (u' & w4 & H1 & H).
  apply os_makedirs_exist_ok_trace in H1.
  assert (Ht4 : length (trace w4) = S (length (trace w))).
  { rewrite H1. simpl. rewrite length_app. simpl. lia. }
  destruct (negb (truthy attachments)).
  - left. apply bind_inv in H as (u'' & w5 & H2 & H).
    injection H2 as _ <-. injection H as <- <-. split; [reflexivity|exact Ht4].
  - right. apply bind_inv in H as (items & w5 & H2 & H).
    apply py_iter_inv in H2 as ->.
    apply bind_inv in H as (saved & w5 & H2 & H).
    injection H as <- <-. eauto 10.
Qed.

(** X7.  Every path [download_attachments] reports in [downloaded_files] opens
    for reading when the tool returns, and the tool has made one request
    for the issue and one per reported file. *)
Theorem download_attachments_saved_files_readable cfg net issue_key w kvs :
  (download_attachments cfg net issue_key w).1 = Return (PDict kvs) ->
  exists saved,
    dict_get kvs "downloaded_files" = Some (PList (map PStr saved)) /\
    (forall p, p ∈ saved -> readable (download_attachments cfg net issue_key w).2 p) /\
    length (trace (download_attachments cfg net issue_key w).2)
    = (length (trace w) + 1 + length saved)%nat.
Proof.
  destruct (download_attachments cfg net issue_key w) as [r w'] eqn:E. simpl.
  intros ->.
  apply download_attachments_inv in E as (k & _ & [[-> Ht]|(items & saved & w3 & He & Ht & ->)]).
  - exists []. split; [reflexivity|]. split; [intros p Hp; inversion Hp|].
    rewrite Ht. simpl. lia.
  - exists saved. split; [reflexivity|].
    apply download_each_saved in He as (new & -> & Hlen & _ & Hread & Htr).
    split; [exact Hread|]. rewrite Htr, Ht, <- Hlen. simpl. lia.
Qed.

Lemma download_attachments_saved_files_readable_witness :
  exists saved,
    dict_get [("downloaded_files", PList [PStr "tmp/../evil.txt"]);
              ("message", PStr "Successfully downloaded 1 attachments from issue DA-4");
              ("issue_key", PStr "DA-4"); ("project_key", PStr "DA")]
      "downloaded_files" = Some (PList (map PStr saved)) /\
    (forall p, p ∈ saved ->
       readable (download_attachments Sample.cfg_unset Sample.net_evil
                   (Some "DA-4") Sample.w_fresh).2 p) /\
    length (trace (download_attachments Sample.cfg_unset Sample.net_evil
                     (Some "DA-4") Sample.w_fresh).2)
    = (length (trace Sample.w_fresh) + 1 + length saved)%nat.
Proof.
  apply (download_attachments_saved_files_readable Sample.cfg_unset
           Sample.net_evil (Some "DA-4") Sample.w_fresh).
  vm_compute. reflexivity.
Defined.


Lemma map_PStr_inj l1 l2 : map PStr l1 = map PStr l2 -> l1 = l2.
Proof.
  revert l2. induction l1 as [|a l1 IH]; intros [|b l2]; simpl; try done.
  intros [= -> H]. f_equal. by apply IH.
Qed.

(** X8.  Download, then upload.  After [download_attachments] has returned its
    dict, uploading the file it reported last sends exactly the bytes the
    remote side served for it in the last request of the download,
    whatever the file's name is. *)
Theorem download_then_upload
    cfg net net' issue_key issue_key' k' w kvs before filename tr q resp :
  let r := download_attachments cfg net issue_key w in
  r.1 = Return (PDict kvs) ->
  dict_get kvs "downloaded_files"
  = Some (PList (map PStr (before ++ [os_path_join "tmp" filename]))) ->
  trace r.2 = tr ++ [q] ->
  net tr q = Answer resp ->
  (default_issue_key cfg issue_key' r.2).1 = Return (Some k') ->
  trace (upload_attachment cfg net' filename issue_key' r.2).2
  = trace r.2 ++ [attach_request cfg k' filename (content resp)].
Proof.
  intros r. subst r.
  destruct (download_attachments cfg net issue_key w) as [r w'] eqn:E. simpl.
  intros -> Hfiles Htr Hnet Hkey.
  apply download_attachments_inv in E
    as (k & _ & [[-> _]|(items & saved & w3 & He & _ & ->)]).
  { simpl in Hfiles. injection Hfiles as Hfiles.
    destruct before; discriminate. }
  simpl in Hfiles. injection Hfiles as Hfiles. apply map_PStr_inj in Hfiles.
  assert (Hitems : items <> []).
  { intros ->. simpl in He. injection He as <- _. destruct before; discriminate. }
  destruct (download_each_last _ _ _ _ _ _ _ Hitems He)
    as (tr0 & q0 & resp0 & before0 & p0 & Htr0 & Hnet0 & Hsaved & Hread).
  rewrite Htr in Htr0. apply app_inj_tail in Htr0 as [-> ->].
  rewrite Hnet in Hnet0. injection Hnet0 as <-.
  rewrite Hfiles in Hsaved. apply app_inj_tail in Hsaved as [_ <-].
  apply (upload_attachment_request cfg net' filename issue_key' k'
           (content resp) w' Hkey Hread).
Qed.

Lemma download_then_upload_witness :
  let r := download_attachments Sample.cfg_unset Sample.net_plan (Some "DA-4")
             Sample.w_fresh in
  trace (upload_attachment Sample.cfg_unset Sample.net_down "plan.txt"
           (Some "DA-7") r.2).2
  = trace r.2 ++ [attach_request Sample.cfg_unset "DA-7" "plan.txt" Sample.hi].
Proof.
  apply (download_then_upload Sample.cfg_unset Sample.net_plan Sample.net_down
           (Some "DA-4") (Some "DA-7") "DA-7" Sample.w_fresh
           [("downloaded_files", PList [PStr "tmp/plan.txt"]);
            ("message", PStr "Successfully downloaded 1 attachments from issue DA-4");
            ("issue_key", PStr "DA-4"); ("project_key", PStr "DA")]
           [] "plan.txt"
           [issue_request Sample.cfg_unset "DA-4"]
           {| req_method := GET; req_url := PStr "https://jira.example/att/1";
              req_auth := (Some "bot", Some "secret"); req_headers := [];
              req_files := [] |}
           {| status_code := 200; reason := "OK"; resp_url := "";
              content := Sample.hi; body := Json PNone |});
    vm_compute; reflexivity.
Defined.

(** ** A field without an id, a scratch directory that is a file *)

(** X9.  When the first field named "Epic Name" has no ["id"], the [KeyError] of
    [field["id"]] leaves the tool, nothing is logged, and a later field
    that has the name and an id is never looked at. *)
Theorem get_epic_name_field_id_match_without_id
    cfg net w resp before kvs after :
  net (trace w) (field_request cfg) = Answer resp ->
  failing (Answer resp) = false ->
  body resp = Json (PList (map PDict before ++ PDict kvs :: after)) ->
  Forall (fun f => dict_get f "name" <> Some (PStr "Epic Name")) before ->
  dict_get kvs "name" = Some (PStr "Epic Name") ->
  dict_get kvs "id" = None ->
  get_epic_name_field_id cfg net w
  = (Raise (KeyError "id"), with_trace (trace w ++ [field_request cfg]) w).
Proof.
  intros Hnet Hok Hbody Hbefore Hname Hid.
  unfold get_epic_name_field_id. cbv zeta. unfold try_except, requests_get.
  change {| req_method := GET;
            req_url := PStr (fstr (JIRA_URL cfg) +:+ "/rest/api/3/field");
            req_auth := auth cfg;
            req_headers := [("Accept", "application/json")];
            req_files := [] |}
    with (field_request cfg).
  rewrite (send_checked_answer net _ _ w resp Hnet Hok).
  unfold response_json. rewrite Hbody. cbv beta iota. rewrite ret_bind.
  change (py_iter (PList (map PDict before ++ PDict kvs :: after)))
    with (mret (map PDict before ++ PDict kvs :: after) : py (list pyval)).
  rewrite ret_bind.
  set (w1 := with_trace _ w).
  assert (E : find_epic_name (map PDict before ++ PDict kvs :: after) w1
              = (Raise (KeyError "id"), w1)).
  { clear -Hbefore Hname Hid.
    induction Hbefore as [|f before Hf _ IH]; simpl.
    - rewrite ret_bind. apply named_epic_name in Hname. rewrite Hname.
      simpl. rewrite Hid. reflexivity.
    - rewrite ret_bind.
      destruct (py_eq_str _ "Epic Name") eqn:E; [|exact IH].
      apply named_epic_name in E. contradiction. }
  rewrite E. reflexivity.
Qed.

Lemma get_epic_name_field_id_match_without_id_witness :
  (get_epic_name_field_id Sample.cfg_unset Sample.net_fields_no_id
     Sample.w_fresh).1 = Raise (KeyError "id").
Proof.
  rewrite (get_epic_name_field_id_match_without_id Sample.cfg_unset
             Sample.net_fields_no_id Sample.w_fresh _
             [] [("name", PStr "Epic Name")]
             [PDict [("id", PStr "customfield_10104"); ("name", PStr "Epic Name")]]
             eq_refl eq_refl eq_refl (Forall_nil_2 _) eq_refl eq_refl).
  reflexivity.
Defined.

Lemma os_makedirs_tmp_file w data :
  is_dir (fs w) (cwd w) = true ->
  fs w !! (cwd w ++ ["tmp"]) = Some (File data) ->
  os_makedirs_exist_ok "tmp" w = (Raise (OSError EEXIST "tmp"), w).
Proof.
  intros Hcwd Hfile.
  unfold os_makedirs_exist_ok, try_except_all, os_mkdir.
  rewrite (resolve_tmp w Hcwd), present_snoc, Hfile.
  rewrite bool_decide_eq_true_2 by eauto.
  rewrite bind_eq. unfold os_path_isdir.
  rewrite (resolve_tmp w Hcwd), is_dir_snoc, Hfile. reflexivity.
Qed.

(** X10.  When [tmp] is a regular file, [os.makedirs] raises [FileExistsError]
    after the issue was fetched: the exception leaves
    [download_attachments], whatever attachments the issue has, and
    nothing is written. *)
Theorem download_attachments_tmp_is_a_file
    cfg net issue_key k w resp kvs fields data :
  (default_issue_key cfg issue_key w).1 = Return (Some k) ->
  net (trace w) (issue_request cfg k) = Answer resp ->
  failing (Answer resp) = false ->
  body resp = Json (PDict kvs) ->
  from_option id (PDict []) (dict_get kvs "fields") = PDict fields ->
  is_dir (fs w) (cwd w) = true ->
  fs w !! (cwd w ++ ["tmp"]) = Some (File data) ->
  let r := download_attachments cfg net issue_key w in
  r.1 = Raise (OSError EEXIST "tmp") /\
  fs r.2 = fs w /\
  trace r.2 = trace w ++ [issue_request cfg k].
Proof.
  intros Hkey Hnet Hok Hbody Hfields Hcwd Hfile r. subst r.
  unfold download_attachments.
  destruct (default_issue_key_spec cfg issue_key w) as [l0 E0].
  rewrite E0 in Hkey. simpl in Hkey. injection Hkey as Hkey.
  rewrite Hkey in E0. rewrite (bind_return _ _ _ _ _ E0).
  set (w1 := with_log (log w ++ l0) w).
  destruct (check_project_spec cfg k w1) as [l1 [E1 _]].
  rewrite (bind_return _ _ _ _ _ E1). cbv zeta.
  set (w2 := with_log (log w1 ++ l1) w1).
  unfold try_except, requests_get.
  change {| req_method := GET;
            req_url := PStr (fstr (JIRA_URL cfg) +:+ "/rest/api/3/issue/" +:+ k);
            req_auth := auth cfg;
            req_headers := [("Accept", "application/json")];
            req_files := [] |}
    with (issue_request cfg k).
  rewrite (send_checked_answer net _ _ w2 resp Hnet Hok).
  unfold response_json. rewrite Hbody. cbv beta iota. rewrite ret_bind.
  rewrite py_get_dict, ret_bind, Hfields.
  rewrite py_get_dict, ret_bind.
  set (w3 := with_trace _ w2).
  rewrite (bind_raise _ _ _ _ _ (os_makedirs_tmp_file w3 data Hcwd Hfile)).
  repeat split.
Qed.

Lemma download_attachments_tmp_is_a_file_witness :
  (download_attachments Sample.cfg_unset Sample.net_plan (Some "DA-4")
     Sample.w_tmp_file).1 = Raise (OSError EEXIST "tmp").
Proof.
  apply (download_attachments_tmp_is_a_file Sample.cfg_unset Sample.net_plan
           (Some "DA-4") "DA-4" Sample.w_tmp_file _ _ _ Sample.hi
           eq_refl eq_refl eq_refl eq_refl eq_refl eq_refl eq_refl).
Defined.


(** ** What the log says about files *)

Lemma readable_frame w w' path :
  fs w' = fs w -> cwd w' = cwd w -> readable w path -> readable w' path.
Proof.
  intros Hf Hc. apply readable_settled. split; [exact Hc|].
  rewrite Hf. apply same_dirs_refl.
Qed.

Lemma no_record_readable base w' : no_record base w' -> records_readable base w'.
Proof.
  intros (l & E & Hno). exists l. split; [exact E|].
  intros p Hp. by destruct (Hno p).
Qed.

Lemma no_record_frame base w w' :
  log w' = log w -> no_record base w -> no_record base w'.
Proof. intros E (l & El & Hno). exists l. by rewrite E. Qed.

Lemma no_record_log base w lv msg :
  lv <> DEBUG -> no_record base w ->
  no_record base (with_log (log w ++ [(lv, msg)]) w).
Proof.
  intros Hlv (l & El & Hno). exists (l ++ [(lv, msg)]). split.
  - simpl. by rewrite El, app_assoc.
  - intros p Hp. apply elem_of_app in Hp as [Hp|Hp]; [by apply (Hno p)|].
    apply list_elem_of_singleton in Hp. injection Hp as Hp _. congruence.
Qed.

Lemma records_readable_log base w lv msg :
  lv <> DEBUG -> records_readable base w ->
  records_readable base (with_log (log w ++ [(lv, msg)]) w).
Proof.
  intros Hlv (l & El & Hr). exists (l ++ [(lv, msg)]). split.
  - simpl. by rewrite El, app_assoc.
  - intros p Hp. apply (readable_frame w); [reflexivity|reflexivity|].
    apply elem_of_app in Hp as [Hp|Hp]; [by apply Hr|].
    apply list_elem_of_singleton in Hp. injection Hp as Hp _. congruence.
Qed.

Lemma py_getitem_pure v k w : exists r, py_getitem v k w = (r, w).
Proof.
  destruct v; simpl; eauto. destruct (dict_get kvs k); eauto.
Qed.

Lemma py_get_pure v k d w : exists r, py_get v k d w = (r, w).
Proof. destruct v; simpl; eauto. Qed.

Lemma py_iter_pure v w : exists r, py_iter v w = (r, w).
Proof. destruct v; simpl; eauto. Qed.

Lemma raise_for_status_pure r w : exists o, raise_for_status r w = (o, w).
Proof.
  destruct (raise_for_status_spec r w) as [[_ [msg ->]]|[_ ->]]; eauto.
Qed.

Lemma response_json_pure r w : exists o, response_json r w = (o, w).
Proof. unfold response_json. destruct (body r); eauto. Qed.

Lemma send_world net q w :
  exists o, send net q w = (o, with_trace (trace w ++ [q]) w).
Proof. unfold send. destruct (net (trace w) q); eauto. Qed.

Lemma os_makedirs_exist_ok_log name w :
  log (os_makedirs_exist_ok name w).2 = log w.
Proof.
  apply (respects_os_makedirs_exist_ok (fun a b => log b = log a)
           (fun a => eq_refl) (fun a b c H1 H2 => eq_trans H2 H1)
           (fun a k _ => eq_refl) name w).
Qed.

(** In the loop, the path of every record logged opens for reading when the
    loop ends, however it ends. *)
Lemma download_each_logged cfg net items saved w :
  settled w (download_each cfg net items saved w).2 /\
  records_readable (log w) (download_each cfg net items saved w).2.
Proof.
  revert saved w.
  induction items as [|item rest IH]; intros saved w; simpl.
  { split; [apply settled_refl|]. exists []. split; [by rewrite app_nil_r|].
    intros p Hp. inversion Hp. }
  assert (Hexit : forall w1, fs w1 = fs w -> cwd w1 = cwd w -> log w1 = log w ->
            settled w w1 /\ records_readable (log w) w1).
  { intros w1 Hf Hc Hl. split.
    - split; [exact Hc|]. rewrite Hf. apply same_dirs_refl.
    - exists []. split; [by rewrite app_nil_r|]. intros p Hp. inversion Hp. }
  rewrite bind_eq. destruct (py_getitem_pure item "content" w) as [r ->].
  destruct r as [file_url|e]; [|by apply Hexit].
  rewrite bind_eq. destruct (py_getitem_pure item "filename" w) as [r ->].
  destruct r as [file_name|e]; [|by apply Hexit].
  rewrite bind_eq. unfold requests_get.
  destruct (send_world net {| req_method := GET; req_url := file_url;
                              req_auth := auth cfg; req_headers := [];
                              req_files := [] |} w) as [r ->].
  set (w1 := with_trace _ w).
  destruct r as [file_response|e]; [|by apply Hexit].
  rewrite bind_eq. destruct (raise_for_status_pure file_response w1) as [r ->].
  destruct r as [u|e]; [|by apply Hexit].
  destruct file_name; try (rewrite bind_eq; by apply Hexit).
  rewrite ret_bind, bind_eq.
  destruct (open_wb_write (os_path_join "tmp" s) (content file_response) w1)
    as [[u'|e] w2] eqn:Ew.
  2:{ assert (w2 = w1) as ->.
      { revert Ew. unfold open_wb_write.
        destruct (resolve w1 _); [by intros [= _ <-]|].
        destruct (is_dir (fs w1) _); by intros [= _ <-]. }
      by apply Hexit. }
  apply open_wb_write_read in Ew as (Hs & Hl & Ht & Hr).
  rewrite bind_eq.
  change (logger_debug ("Downloaded attachment: " +:+ os_path_join "tmp" s) w2)
    with (Return (), with_log (log w2 ++ [download_record (os_path_join "tmp" s)]) w2).
  cbv beta iota.
  set (w3 := with_log _ w2).
  destruct (IH (saved ++ [os_path_join "tmp" s]) w3) as [Hs3 (l & El & Hread)].
  assert (Hs13 : settled w (download_each cfg net rest
                              (saved ++ [os_path_join "tmp" s]) w3).2).
  { eapply settled_trans; [|exact Hs3]. destruct Hs as [Hc Hd]. split; assumption. }
  split; [exact Hs13|].
  exists (download_record (os_path_join "tmp" s) :: l). split.
  - rewrite El. unfold w3. simpl. rewrite Hl. simpl. by rewrite <- app_assoc.
  - intros p Hp. apply elem_of_cons in Hp as [Hp|Hp]; [|by apply Hread].
    injection Hp as Hp. apply String.app_inj in Hp. subst p.
    apply (readable_settled w3 _ _ Hs3).
    exists (content file_response). unfold w3. rewrite open_rb_with_log, Hr.
    reflexivity.
Qed.

Lemma no_record_start w : no_record (log w) w.
Proof. exists []. split; [by rewrite app_nil_r|]. intros p Hp. inversion Hp. Qed.

Lemma no_record_then_readable base w w' :
  no_record base w -> records_readable (log w) w' -> records_readable base w'.
Proof.
  intros (l & El & Hno) (l' & El' & Hr). exists (l ++ l'). split.
  - by rewrite El', El, app_assoc.
  - intros p Hp. apply elem_of_app in Hp as [Hp|Hp]; [by destruct (Hno p)|].
    by apply Hr.
Qed.

Lemma no_record_ext base w w' l :
  no_record base w -> log w' = log w ++ l ->
  Forall (fun e : level * string => e.1 <> DEBUG) l -> no_record base w'.
Proof.
  intros (l0 & E0 & Hno) El Hlv. exists (l0 ++ l). split.
  - by rewrite El, E0, app_assoc.
  - intros p Hp. apply elem_of_app in Hp as [Hp|Hp]; [by apply (Hno p)|].
    rewrite Forall_forall in Hlv. by apply (Hlv _ Hp).
Qed.

Lemma default_issue_key_no_record cfg issue_key base w :
  no_record base w -> no_record base (default_issue_key cfg issue_key w).2.
Proof.
  intros Hn. destruct (default_issue_key_spec cfg issue_key w) as [l E].
  unfold default_issue_key in *.
  destruct (truthy_opt issue_key); [exact Hn|].
  destruct (truthy_opt (ISSUE_KEY cfg)).
  - eapply (no_record_ext base w _ [_]); [exact Hn|reflexivity|].
    repeat constructor. discriminate.
  - eapply (no_record_ext base w _ [_; _]); [exact Hn|simpl; by rewrite <- app_assoc|].
    repeat constructor; discriminate.
Qed.

Lemma check_project_no_record cfg issue_key base w :
  no_record base w -> no_record base (check_project cfg issue_key w).2.
Proof.
  intros Hn. unfold check_project. destruct issue_key as [k|]; [|exact Hn].
  destruct (String.prefix _ k); [exact Hn|].
  eapply (no_record_ext base w _ [_]); [exact Hn|reflexivity|].
  repeat constructor. discriminate.
Qed.

Lemma try_except_records base (body : py pyval) (h : string -> string) w :
  records_readable base (body w).2 ->
  records_readable base
    (try_except body (fun e => logger_error (h e) ≫= fun _ => mret PNone) w).2.
Proof.
  unfold try_except. destruct (body w) as [[v|e] w1]; simpl; [done|].
  destruct e; simpl; try done.
  intros Hr. by apply (records_readable_log base w1 ERROR).
Qed.

(** X11.  Whatever way a call of [download_attachments] ends (the dict,
    [None] after a failed request, or an exception), every path of a
    "Downloaded attachment" record the call has logged opens for reading
    when the call ends: files saved before a failure stay. *)
Theorem download_attachments_logged_files_exist cfg net issue_key w :
  records_readable (log w) (download_attachments cfg net issue_key w).2.
Proof.
  unfold download_attachments.
  pose proof (default_issue_key_no_record cfg issue_key (log w) w
                (no_record_start w)) as N1.
  rewrite bind_eq.
  destruct (default_issue_key cfg issue_key w) as [[key|e] w1];
    [|by apply no_record_readable].
  simpl in N1.
  pose proof (check_project_no_record cfg key (log w) w1 N1) as N2.
  rewrite bind_eq.
  destruct (check_project cfg key w1) as [[k|e] w2];
    [|by apply no_record_readable].
  simpl in N2. cbv zeta.
  apply (try_except_records (log w) _
           (fun e => "Error downloading attachments for " +:+ k +:+ ": " +:+ e)).
  unfold requests_get. rewrite bind_eq.
  match goal with
  | |- context [send net ?q w2] => destruct (send_world net q w2) as [r ->]
  end.
  set (w3 := with_trace _ w2).
  assert (N3 : no_record (log w) w3) by by apply (no_record_frame _ w2).
  destruct r as [response|e]; [|by apply no_record_readable].
  rewrite bind_eq. destruct (raise_for_status_pure response w3) as [r ->].
  destruct r as [u|e]; [|by apply no_record_readable].
  rewrite bind_eq. destruct (response_json_pure response w3) as [r ->].
  destruct r as [issue|e]; [|by apply no_record_readable].
  rewrite bind_eq. destruct (py_get_pure issue "fields" (PDict []) w3) as [r ->].
  destruct r as [fields|e]; [|by apply no_record_readable].
  rewrite bind_eq. destruct (py_get_pure fields "attachment" (PList []) w3) as [r ->].
  destruct r as [attachments|e]; [|by apply no_record_readable].
  rewrite bind_eq.
  pose proof (os_makedirs_exist_ok_log "tmp" w3) as Hl4.
  destruct (os_makedirs_exist_ok "tmp" w3) as [r w4]. simpl in Hl4.
  assert (N4 : no_record (log w) w4) by by apply (no_record_frame _ w3).
  destruct r as [u'|e]; [|by apply no_record_readable].
  destruct (negb (truthy attachments)).
  - apply no_record_readable.
    eapply (no_record_ext (log w) w4 _ [_]); [exact N4|reflexivity|].
    repeat constructor. discriminate.
  - rewrite bind_eq. destruct (py_iter_pure attachments w4) as [r ->].
    destruct r as [items|e]; [|by apply no_record_readable].
    rewrite bind_eq.
    destruct (download_each_logged cfg net items [] w4) as [_ Hr].
    destruct (download_each cfg net items [] w4) as [[saved|e] w5]; simpl in *;
      by apply (no_record_then_readable _ w4).
Qed.
